(** * docweave: the repository analysis pipeline

    A shallow embedding of [doc_generator/utils.py] ([FileUtils]),
    [doc_generator/analyzers.py] ([CodeAnalyzer], [APISpecAnalyzer]) and of
    [ServiceDocGenerator._prepare_llm_context] in [doc_generator/generator.py],
    with the properties the specification states about them.

    Conventions.
    - A Python [str] is a [string]; one [ascii] stands for one character
      (code points below 256).  The box-drawing literals of the tree renderer
      lie outside that range and are written as their UTF-8 bytes; only their
      being distinct literals matters below.
    - A checked-out repository is a finite tree of [node]s; the root is a
      directory by its type.
    - Python exceptions are values of [result]; [try: ... except Exception]
      is [try_except].
    - [json.load]/[json.loads] and [yaml.safe_load] are library code: they are
      Section variables returning [None] where the library raises. *)

From Stdlib Require Import List Bool Arith ZArith Lia Ascii String.
From Stdlib Require Import Permutation Sorted DecimalString.
Import ListNotations.

Set Warnings "-register-all".
Local Open Scope list_scope.
Local Open Scope string_scope.

(** ** Python strings *)

Module PyStr.

(** [str.isspace] on one character, as [str.strip()] uses it. *)
Definition is_space (c : ascii) : bool :=
  let n := nat_of_ascii c in
  (((9 <=? n) && (n <=? 13)) || ((28 <=? n) && (n <=? 32))
  || (n =? 133) || (n =? 160))%nat.

Fixpoint lstrip (s : string) : string :=
  match s with
  | EmptyString => EmptyString
  | String c s' => if is_space c then lstrip s' else s
  end.

Fixpoint rstrip (s : string) : string :=
  match s with
  | EmptyString => EmptyString
  | String c s' =>
      match rstrip s' with
      | EmptyString => if is_space c then EmptyString else String c EmptyString
      | r => String c r
      end
  end.

(** [s.strip()] *)
Definition strip (s : string) : string := rstrip (lstrip s).

(** [s.startswith(p)] *)
Definition startswith (p s : string) : bool := String.prefix p s.

(** [sub in s] for strings *)
Fixpoint contains (sub s : string) : bool :=
  String.prefix sub s || match s with
                         | EmptyString => false
                         | String _ s' => contains sub s'
                         end.

(** [s.split(c)] for a one-character separator: never the empty list. *)
Fixpoint split_char (c : ascii) (s : string) : list string :=
  match s with
  | EmptyString => [EmptyString]
  | String a s' =>
      if Ascii.eqb a c then EmptyString :: split_char c s'
      else match split_char c s' with
           | h :: t => String a h :: t
           | [] => [String a EmptyString]
           end
  end.

(** [s.split(sep)[0]] for a non-empty separator: the text before the first
    occurrence of [sep], the whole of [s] when there is none. *)
Fixpoint before (sep s : string) : string :=
  if String.prefix sep s then EmptyString
  else match s with
       | EmptyString => EmptyString
       | String a s' => String a (before sep s')
       end.

(** [s[:n]] *)
Definition slice_to (n : nat) (s : string) : string := String.substring 0 n s.

(** [sep.join(l)] for a list of strings *)
Definition join (sep : string) (l : list string) : string := String.concat sep l.

(** [str(n)] for a length *)
Definition of_nat (n : nat) : string := NilEmpty.string_of_uint (Nat.to_uint n).

(** [c.lower()] for a character below 256. *)
Definition lower_char (c : ascii) : ascii :=
  let n := nat_of_ascii c in
  if (((65 <=? n) && (n <=? 90))
      || ((192 <=? n) && (n <=? 222) && negb (n =? 215)))%nat
  then ascii_of_nat (n + 32) else c.

Definition is_ascii_lower (c : ascii) : bool :=
  let n := nat_of_ascii c in ((97 <=? n) && (n <=? 122))%nat.

Definition is_ascii_upper (c : ascii) : bool :=
  let n := nat_of_ascii c in ((65 <=? n) && (n <=? 90))%nat.

(** [s.title()] for ASCII text, [cased] telling whether the character
    before was a letter. *)
Fixpoint title_from (cased : bool) (s : string) : string :=
  match s with
  | EmptyString => EmptyString
  | String c s' =>
      let c' :=
        if is_ascii_lower c && negb cased then ascii_of_nat (nat_of_ascii c - 32)
        else if is_ascii_upper c && cased then lower_char c
        else c in
      String c' (title_from (is_ascii_lower c || is_ascii_upper c) s')
  end.

Definition title (s : string) : string := title_from false s.

Fixpoint lower (s : string) : string :=
  match s with
  | EmptyString => EmptyString
  | String c s' => String (lower_char c) (lower s')
  end.

(** Truthiness of a [str]: non-empty. *)
Definition truthy (s : string) : bool := negb (s =? "").

End PyStr.

(** The character and the string ['\n']. *)
Definition nl : ascii := ascii_of_nat 10.
Definition newline : string := String nl EmptyString.

(** ** Exceptions *)

(** The exceptions the modelled code can meet. *)
Inductive exn : Type :=
| TypeError | AttributeError | KeyError | IsADirectoryError | DecodeError.

(** A computation that returns or raises. *)
Inductive result (A : Type) : Type :=
| Ok (a : A)
| Raise (e : exn).
Arguments Ok {A} a.
Arguments Raise {A} e.

Definition bind {A B : Type} (r : result A) (k : A -> result B) : result B :=
  match r with
  | Ok a => k a
  | Raise e => Raise e
  end.

Notation "x <- r ;; k" := (bind r (fun x => k))
  (at level 61, r at next level, right associativity).

(** [try: body  except Exception: handler] *)
Definition try_except {A : Type} (body : result A) (handler : A) : A :=
  match body with
  | Ok a => a
  | Raise _ => handler
  end.

(** ** The repository snapshot *)

(** An entry of the checkout: a file with its decoded text, or a directory
    with its entries in the order the file system lists them. *)
Inductive node : Type :=
| File (name : string) (content : string)
| Dir (name : string) (entries : list node).

Definition name (n : node) : string :=
  match n with
  | File s _ => s
  | Dir s _ => s
  end.

Definition is_dir (n : node) : bool :=
  match n with
  | File _ _ => false
  | Dir _ _ => true
  end.

(** [repo_path]: the root directory, by its name and entries. *)
Record repo : Type := { repo_name : string; repo_entries : list node }.

(** [(path / file_name)] looked up among the entries of a directory. *)
Definition child (entries : list node) (file_name : string) : option node :=
  find (fun n => name n =? file_name) entries.

(** [(path / file_name).exists()] *)
Definition exists_ (entries : list node) (file_name : string) : bool :=
  match child entries file_name with
  | Some _ => true
  | None => false
  end.

(** [path.read_text(encoding='utf-8', errors='ignore')] *)
Definition read_text (n : node) : result string :=
  match n with
  | File _ c => Ok c
  | Dir _ _ => Raise IsADirectoryError
  end.

(** ** requirements.txt, as [FileUtils._extract_python_info] reads it *)

(** The list comprehension [lines] of [_extract_python_info]. *)
Definition requirement_lines (content : string) : list string :=
  map PyStr.strip
      (filter (fun line => PyStr.truthy (PyStr.strip line)
                           && negb (PyStr.startswith "#" line))
              (PyStr.split_char nl content)).

Definition _extract_python_info (file_path : node) : option string :=
  try_except
    (content <- read_text file_path ;;
     if name file_path =? "requirements.txt" then
       let lines := requirement_lines content in
       Ok (Some ("Dependencies: " ++ PyStr.of_nat (List.length lines) ++ " packages"))
     else if name file_path =? "setup.py" then
       if PyStr.contains "python_requires" content
       then Ok (Some "Python package with setup.py")
       else Ok None
     else Ok None)
    None.

(** ** Parsed JSON / YAML documents *)

(** The values [json.loads] and [yaml.safe_load] build.  A [dict] is the
    list of its items in insertion order; a float is kept as its text. *)
Inductive pyval : Type :=
| PNone
| PBool (b : bool)
| PInt (z : Z)
| PFloat (repr : string)
| PStr (s : string)
| PList (l : list pyval)
| PDict (d : list (pyval * pyval)).

Module Py.

Definition is_key (k : string) (v : pyval) : bool :=
  match v with
  | PStr s => s =? k
  | _ => false
  end.

(** [d[k]] on the items of a [dict], for a [str] key. *)
Definition lookup (k : string) (d : list (pyval * pyval)) : option pyval :=
  match find (fun kv => is_key k (fst kv)) d with
  | Some kv => Some (snd kv)
  | None => None
  end.

(** [k in v] *)
Definition contains (k : string) (v : pyval) : result bool :=
  match v with
  | PDict d => Ok (existsb (fun kv => is_key k (fst kv)) d)
  | PList l => Ok (existsb (is_key k) l)
  | PStr s => Ok (PyStr.contains k s)
  | _ => Raise TypeError
  end.

(** [v[k]] *)
Definition getitem (v : pyval) (k : string) : result pyval :=
  match v with
  | PDict d => match lookup k d with
               | Some x => Ok x
               | None => Raise KeyError
               end
  | _ => Raise TypeError
  end.

(** [v.get(k, default)] *)
Definition get (v : pyval) (k : string) (default : pyval) : result pyval :=
  match v with
  | PDict d => match lookup k d with
               | Some x => Ok x
               | None => Ok default
               end
  | _ => Raise AttributeError
  end.

(** [list(v.keys())] *)
Definition keys (v : pyval) : result (list pyval) :=
  match v with
  | PDict d => Ok (map fst d)
  | _ => Raise AttributeError
  end.

(** [len(v)] *)
Definition len (v : pyval) : result nat :=
  match v with
  | PDict d => Ok (List.length d)
  | PList l => Ok (List.length l)
  | PStr s => Ok (String.length s)
  | _ => Raise TypeError
  end.

(** The items of [l] when all are [str], as [sep.join(l)] requires. *)
Fixpoint strings (l : list pyval) : result (list string) :=
  match l with
  | [] => Ok []
  | PStr s :: l' => ss <- strings l' ;; Ok (s :: ss)
  | _ :: _ => Raise TypeError
  end.

(** [sep.join(l)] *)
Definition join (sep : string) (l : list pyval) : result string :=
  ss <- strings l ;; Ok (PyStr.join sep ss).

(** Every mapping inside [v] has [str] keys, as [json] documents do. *)
Fixpoint str_keys (v : pyval) : bool :=
  match v with
  | PList l => forallb str_keys l
  | PDict d =>
      forallb (fun kv => match fst kv with
                         | PStr _ => str_keys (snd kv)
                         | _ => false
                         end) d
  | _ => true
  end.

End Py.

(** ** Fixed tables of the source *)

Definition config_patterns : list string :=
  [ "config.json"; "config.yaml"; "config.yml";
    ".env.example"; ".env.template";
    "docker-compose.yml"; "docker-compose.yaml";
    "Dockerfile"; "Makefile";
    "package.json"; "requirements.txt"; "setup.py";
    "pom.xml"; "build.gradle"; "go.mod"; "Cargo.toml" ].

Definition common_entry_files : list string :=
  [ "main.py"; "app.py"; "server.py"; "index.js"; "main.js";
    "app.js"; "server.js"; "main.go"; "main.java"; "Program.cs" ].

Definition readme_patterns : list string :=
  [ "README.md"; "README.rst"; "README.txt"; "README" ].

Definition excluded_dirs : list string :=
  [ "node_modules"; "__pycache__"; "venv"; "env" ].

Definition language_extensions : list (string * string) :=
  [ (".py", "Python"); (".js", "JavaScript"); (".ts", "TypeScript");
    (".java", "Java"); (".go", "Go"); (".rs", "Rust"); (".cpp", "C++");
    (".c", "C"); (".cs", "C#"); (".php", "PHP"); (".rb", "Ruby") ].

Definition framework_indicators : list (string * list string) :=
  [ ("package.json", ["react"; "vue"; "angular"; "express"; "fastify"; "next"]);
    ("requirements.txt", ["django"; "flask"; "fastapi"; "tornado"]);
    ("pom.xml", ["spring"; "hibernate"]);
    ("go.mod", ["gin"; "echo"; "fiber"]);
    ("Cargo.toml", ["actix"; "rocket"; "warp"]) ].

Definition no_config_marker : string := "No configuration files found".
Definition no_api_marker : string := "No API specifications found".

(** [l.append(x)] and [l.extend(l2)], returning the updated list. *)
Definition append {A : Type} (l : list A) (x : A) : list A := (l ++ [x])%list.
Definition extend {A : Type} (l l2 : list A) : list A := (l ++ l2)%list.

(** [x in l] for a list of string literals *)
Definition mem (x : string) (l : list string) : bool :=
  existsb (String.eqb x) l.

(** [line.split('==')[0].split('>=')[0].split('~=')[0]] *)
Definition dependency_name (line : string) : string :=
  PyStr.before "~=" (PyStr.before ">=" (PyStr.before "==" line)).

(** ** FileUtils: the tree renderer *)

(** The four literals of the tree drawing. *)
Definition last_connector : string := "└── ".
Definition mid_connector : string := "├── ".
Definition last_indent : string := "    ".
Definition mid_indent : string := "│   ".

(** The filter of [add_directory]'s list comprehension. *)
Definition listed (item : node) : bool :=
  negb (PyStr.startswith "." (name item)) && negb (mem (name item) excluded_dirs).

(** [sorted(...)] on sibling paths: ascending by name, by insertion. *)
Fixpoint insert_by_name (x : node) (l : list node) : list node :=
  match l with
  | [] => [x]
  | y :: l' => if (name x <=? name y) then x :: l else y :: insert_by_name x l'
  end.

Fixpoint sorted (l : list node) : list node :=
  match l with
  | [] => []
  | x :: l' => insert_by_name x (sorted l')
  end.

(** [enumerate(items)] *)
Definition enumerate {A : Type} (items : list A) : list (nat * A) :=
  combine (seq 0 (List.length items)) items.

(** The nested function [add_directory]; it returns the lines it appends to
    [structure_lines].  [fuel] bounds the nesting of calls: a call at [depth]
    needs [max_depth - depth + 1] of it, see [add_directory_fuel]. *)
Fixpoint add_directory (fuel : nat) (max_depth : Z) (entries : list node)
         (prefix : string) (depth : Z) {struct fuel} : list string :=
  match fuel with
  | O => []
  | S fuel' =>
      if (depth >? max_depth)%Z then []
      else
        let items := sorted (filter listed entries) in
        flat_map
          (fun ix : nat * node =>
             let (i, item) := ix in
             let is_last := (i =? List.length items - 1)%nat in
             let current_prefix := if is_last then last_connector else mid_connector in
             (prefix ++ current_prefix ++ name item)
               :: match item with
                  | Dir _ sub =>
                      if (depth <? max_depth)%Z then
                        let next_prefix :=
                          prefix ++ (if is_last then last_indent else mid_indent) in
                        add_directory fuel' max_depth sub next_prefix (depth + 1)
                      else []
                  | File _ _ => []
                  end)
          (enumerate items)
  end.

Definition structure_lines (repo_path : repo) (max_depth : Z) : list string :=
  repo_name repo_path
    :: add_directory (S (Z.to_nat max_depth)) max_depth (repo_entries repo_path) "" 0.

Definition get_project_structure (repo_path : repo) (max_depth : Z) : string :=
  PyStr.join newline (structure_lines repo_path max_depth).

(** ** FileUtils: README lookup *)

Fixpoint find_readme_in (entries : list node) (patterns : list string) : option string :=
  match patterns with
  | [] => None
  | pattern :: rest =>
      match child entries pattern with
      | Some readme_path =>
          match read_text readme_path with
          | Ok content => Some content
          | Raise _ => find_readme_in entries rest
          end
      | None => find_readme_in entries rest
      end
  end.

Definition find_readme (repo_path : repo) : option string :=
  find_readme_in (repo_entries repo_path) readme_patterns.

(** ** CodeAnalyzer: entry points *)

Definition _find_entry_points (repo_path : repo) : list string :=
  fold_left
    (fun entry_points entry_file =>
       if exists_ (repo_entries repo_path) entry_file
       then append entry_points entry_file
       else entry_points)
    common_entry_files [].

(** ** pathlib: suffixes and recursive globbing *)

(** The part of [s] from its last ['.'] on, when it has one. *)
Fixpoint from_last_dot (s : string) : option string :=
  match s with
  | EmptyString => None
  | String c s' =>
      match from_last_dot s' with
      | Some e => Some e
      | None => if Ascii.eqb c "." then Some s else None
      end
  end.

(** [path.suffix]: [name[i:]] for [i = name.rfind('.')] when
    [0 < i < len(name) - 1], the empty string otherwise. *)
Definition suffix (n : node) : string :=
  match name n with
  | EmptyString => EmptyString
  | String _ rest =>
      match from_last_dot rest with
      | Some e => if (String.length e =? 1)%nat then EmptyString else e
      | None => EmptyString
      end
  end.

(** [fnmatch] for patterns made of literal characters and ['*']. *)
Fixpoint glob_match (pat : string) : string -> bool :=
  match pat with
  | EmptyString => fun s => s =? ""
  | String c pat' =>
      if Ascii.eqb c "*" then
        fix star (s : string) : bool :=
          glob_match pat' s
          || match s with
             | EmptyString => false
             | String _ s' => star s'
             end
      else
        fun s =>
          match s with
          | EmptyString => false
          | String d s' => Ascii.eqb c d && glob_match pat' s'
          end
  end.

(** Everything below a directory, in the order [rglob] visits it: the
    entries of the directory itself, then those of each subdirectory. *)
Fixpoint walk (n : node) : list node :=
  match n with
  | File _ _ => []
  | Dir _ entries => (entries ++ flat_map walk entries)%list
  end.

Definition walk_entries (entries : list node) : list node :=
  (entries ++ flat_map walk entries)%list.

Section Pipeline.

(** [json.load] / [json.loads] and [yaml.safe_load]; [None] where they raise. *)
Variable json_loads : string -> option pyval.
Variable yaml_safe_load : string -> option pyval.

(** [str(v)] for a value that is not a [str], as an f-string formats it. *)
Variable py_repr : pyval -> string.

(** Whether the platform's [pathlib] globs ignoring case (Windows flavour)
    or not (POSIX flavour).  The patterns of this program are lower-case
    literals, so folding the entry's name is all that ignoring case does. *)
Variable fold_case : bool.

Definition parse (loads : string -> option pyval) (content : string) : result pyval :=
  match loads content with
  | Some v => Ok v
  | None => Raise DecodeError
  end.

(** [f"{v}"] *)
Definition format (v : pyval) : string :=
  match v with
  | PStr s => s
  | _ => py_repr v
  end.

(** [list(path.rglob(pattern))] on the entries of [path]. *)
Definition rglob (entries : list node) (pattern : string) : list node :=
  filter (fun e => glob_match pattern
                     (if fold_case then PyStr.lower (name e) else name e))
         (walk_entries entries).

(** *** FileUtils: configuration files *)

Definition _extract_package_json_info (package_path : node) : option string :=
  try_except
    (content <- read_text package_path ;;
     data <- parse json_loads content ;;
     has_scripts <- Py.contains "scripts" data ;;
     info_parts <-
       (if has_scripts : bool then
          scripts_map <- Py.getitem data "scripts" ;;
          all_scripts <- Py.keys scripts_map ;;
          joined <- Py.join ", " (firstn 3 all_scripts) ;;
          Ok ["Scripts: " ++ joined]
        else Ok []) ;;
     has_engines <- Py.contains "engines" data ;;
     info_parts <-
       (if has_engines : bool then
          engines <- Py.getitem data "engines" ;;
          has_node <- Py.contains "node" engines ;;
          if has_node : bool then
            node_version <- Py.getitem engines "node" ;;
            Ok (append info_parts ("Node: " ++ format node_version))
          else Ok info_parts
        else Ok info_parts) ;;
     Ok (match info_parts with
         | [] => None
         | _ => Some (PyStr.join " | " info_parts)
         end))
    None.

(** One round of the loop of [find_config_files]. *)
Definition config_step (entries : list node) (config_files : list string)
           (pattern : string) : list string :=
  match child entries pattern with
  | Some config_path =>
      let config_files := append config_files ("- " ++ pattern) in
      if pattern =? "package.json" then
        match _extract_package_json_info config_path with
        | Some info => if PyStr.truthy info
                       then append config_files ("  " ++ info)
                       else config_files
        | None => config_files
        end
      else if mem pattern ["requirements.txt"; "setup.py"] then
        match _extract_python_info config_path with
        | Some info => if PyStr.truthy info
                       then append config_files ("  " ++ info)
                       else config_files
        | None => config_files
        end
      else config_files
  | None => config_files
  end.

Definition config_lines (repo_path : repo) : list string :=
  fold_left (config_step (repo_entries repo_path)) config_patterns [].

Definition find_config_files (repo_path : repo) : string :=
  match config_lines repo_path with
  | [] => no_config_marker
  | config_files => PyStr.join newline config_files
  end.

(** *** CodeAnalyzer: dependencies *)

(** The names read from requirements.txt, before [deps[:5]]. *)
Definition requirement_names (content : string) : list string :=
  map dependency_name
      (filter (fun line => PyStr.truthy (PyStr.strip line)
                           && negb (PyStr.startswith "#" line))
              (PyStr.split_char nl content)).

(** The keys read from package.json, before [deps[:5]]; raises where the
    body of the [try] does. *)
Definition package_keys (package_file : node) : result (list pyval) :=
  content <- read_text package_file ;;
  package_data <- parse json_loads content ;;
  deps_map <- Py.get package_data "dependencies" (PDict []) ;;
  Py.keys deps_map.

(** The list [dependencies] at the [return]. *)
Definition dependencies (repo_path : repo) : result (list pyval) :=
  let entries := repo_entries repo_path in
  dependencies <-
    match child entries "requirements.txt" with
    | Some req_file =>
        content <- read_text req_file ;;
        Ok (extend [] (map PStr (firstn 5 (requirement_names content))))
    | None => Ok []
    end ;;
  Ok match child entries "package.json" with
     | Some package_file =>
         try_except
           (deps <- package_keys package_file ;;
            Ok (extend dependencies (firstn 5 deps)))
           dependencies
     | None => dependencies
     end.

Definition _analyze_dependencies (repo_path : repo) : result string :=
  dependencies <- dependencies repo_path ;;
  match dependencies with
  | [] => Ok ""
  | _ => Py.join ", " (firstn 10 dependencies)
  end.

(** *** CodeAnalyzer: languages, frameworks, insights *)

(** [language_extensions[suffix]] when [suffix in language_extensions] *)
Definition language_of (sfx : string) : option string :=
  match find (fun kv => fst kv =? sfx) language_extensions with
  | Some kv => Some (snd kv)
  | None => None
  end.

(** [found_languages.add(language)] *)
Definition set_add (found : list string) (language : string) : list string :=
  if mem language found then found else append found language.

(** [list(found_languages)]; the set is kept in the order of first
    insertion, Python leaves the order of its elements open. *)
Definition _detect_languages (repo_path : repo) : list string :=
  fold_left
    (fun found_languages file_path =>
       match file_path, language_of (suffix file_path) with
       | File _ _, Some language => set_add found_languages language
       | _, _ => found_languages
       end)
    (rglob (repo_entries repo_path) "*") [].

Definition _detect_frameworks (repo_path : repo) : result (list string) :=
  fold_left
    (fun (acc : result (list string)) (indicator : string * list string) =>
       frameworks <- acc ;;
       let (file_name, framework_list) := indicator in
       match child (repo_entries repo_path) file_name with
       | Some file_path =>
           content <- read_text file_path ;;
           Ok (fold_left
                 (fun frameworks framework =>
                    if PyStr.contains framework (PyStr.lower content)
                    then append frameworks (PyStr.title framework)
                    else frameworks)
                 framework_list frameworks)
       | None => Ok frameworks
       end)
    framework_indicators (Ok []).

Definition analyze_codebase (repo_path : repo) : result string :=
  let insights := [] in
  let languages := _detect_languages repo_path in
  let insights :=
    match languages with
    | [] => insights
    | _ => append insights ("Programming Languages: " ++ PyStr.join ", " languages)
    end in
  frameworks <- _detect_frameworks repo_path ;;
  let insights :=
    match frameworks with
    | [] => insights
    | _ => append insights ("Frameworks: " ++ PyStr.join ", " frameworks)
    end in
  let entry_points := _find_entry_points repo_path in
  let insights :=
    match entry_points with
    | [] => insights
    | _ => append insights ("Entry Points: " ++ PyStr.join ", " entry_points)
    end in
  dependencies <- _analyze_dependencies repo_path ;;
  let insights :=
    if PyStr.truthy dependencies
    then append insights ("Key Dependencies: " ++ dependencies)
    else insights in
  Ok (PyStr.join newline insights).

(** *** APISpecAnalyzer *)

(** The body of the [try] of [_extract_api_info]. *)
Definition api_info_body (spec_file : node) : result (option string) :=
  content <- read_text spec_file ;;
  spec_data <-
    (if suffix spec_file =? ".json"
     then parse json_loads content
     else parse yaml_safe_load content) ;;
  has_info <- Py.contains "info" spec_data ;;
  info <-
    (if has_info : bool then
       info_map <- Py.getitem spec_data "info" ;;
       title <- Py.get info_map "title" (PStr "Unknown") ;;
       version <- Py.get info_map "version" (PStr "Unknown") ;;
       Ok ["  Title: " ++ format title ++ ", Version: " ++ format version]
     else Ok []) ;;
  has_paths <- Py.contains "paths" spec_data ;;
  info <-
    (if has_paths : bool then
       paths <- Py.getitem spec_data "paths" ;;
       endpoint_count <- Py.len paths ;;
       let info := append info ("  Endpoints: " ++ PyStr.of_nat endpoint_count) in
       all_paths <- Py.keys paths ;;
       match firstn 3 all_paths with
       | [] => Ok info
       | endpoints =>
           joined <- Py.join ", " endpoints ;;
           Ok (append info ("  Sample endpoints: " ++ joined))
       end
     else Ok info) ;;
  Ok (Some (PyStr.join newline info)).

Definition _extract_api_info (spec_file : node) : option string :=
  try_except (api_info_body spec_file) None.

(** The files the first loop runs over. *)
Definition openapi_files (repo_path : repo) : list node :=
  (rglob (repo_entries repo_path) "*openapi*"
   ++ rglob (repo_entries repo_path) "*swagger*")%list.

Definition is_spec_suffix (spec_file : node) : bool :=
  mem (suffix spec_file) [".yaml"; ".yml"; ".json"].

Definition openapi_header (spec_file : node) : string :=
  "OpenAPI Spec: " ++ name spec_file.

(** One round of the first loop of [find_api_specs]. *)
Definition openapi_step (specs : list string) (spec_file : node) : list string :=
  if is_spec_suffix spec_file then
    let specs := append specs (openapi_header spec_file) in
    match _extract_api_info spec_file with
    | Some content => if PyStr.truthy content then append specs content else specs
    | None => specs
    end
  else specs.

Definition graphql_step (specs : list string) (schema_file : node) : list string :=
  if mem (suffix schema_file) [".graphql"; ".gql"]
  then append specs ("GraphQL Schema: " ++ name schema_file)
  else specs.

Definition api_docs_step (specs : list string) (doc_path : node) : list string :=
  match doc_path with
  | Dir _ entries =>
      match rglob entries "*.md" with
      | [] => specs
      | _ => append specs ("API Documentation: " ++ name doc_path ++ "/")
      end
  | File _ _ => specs
  end.

(** The list [specs] after the first loop, and at the [return]. *)
Definition openapi_specs (repo_path : repo) : list string :=
  fold_left openapi_step (openapi_files repo_path) [].

Definition api_specs (repo_path : repo) : list string :=
  let entries := repo_entries repo_path in
  let specs := openapi_specs repo_path in
  let specs :=
    fold_left graphql_step
              (rglob entries "*.graphql" ++ rglob entries "*schema*")%list specs in
  fold_left api_docs_step
            (rglob entries "*api*" ++ rglob entries "*docs*")%list specs.

Definition find_api_specs (repo_path : repo) : string :=
  match api_specs repo_path with
  | [] => no_api_marker
  | specs => PyStr.join newline specs
  end.

End Pipeline.

(** ** ServiceDocGenerator: the context handed to the model *)

(** The dictionary [analysis] built by [_analyze_repository]. *)
Record AnalysisRecord : Type := {
  structure : string;
  readme : option string;
  api_specs_text : string;
  code_analysis : string;
  config_files : string
}.

Definition blank_line : string := newline ++ newline.

(** The README block: [f"**Existing README:**\n{readme[:2000]}..."]. *)
Definition readme_block (content : string) : string :=
  "**Existing README:**" ++ newline ++ PyStr.slice_to 2000 content ++ "...".

(** The list [context_parts] at the [return]. *)
Definition context_parts (analysis : AnalysisRecord) : list string :=
  let context_parts := [] in
  let context_parts :=
    if PyStr.truthy (structure analysis)
    then append context_parts ("**Project Structure:**" ++ newline ++ structure analysis)
    else context_parts in
  let context_parts :=
    match readme analysis with
    | Some content =>
        if PyStr.truthy content
        then append context_parts (readme_block content)
        else context_parts
    | None => context_parts
    end in
  let context_parts :=
    if PyStr.truthy (api_specs_text analysis)
    then append context_parts
                ("**API Specifications:**" ++ newline ++ api_specs_text analysis)
    else context_parts in
  let context_parts :=
    if PyStr.truthy (code_analysis analysis)
    then append context_parts ("**Code Analysis:**" ++ newline ++ code_analysis analysis)
    else context_parts in
  let context_parts :=
    if PyStr.truthy (config_files analysis)
    then append context_parts ("**Configuration:**" ++ newline ++ config_files analysis)
    else context_parts in
  context_parts.

Definition _prepare_llm_context (analysis : AnalysisRecord) : string :=
  PyStr.join blank_line (context_parts analysis).

(** [ServiceDocGenerator._analyze_repository] *)
Definition _analyze_repository (json_loads yaml_safe_load : string -> option pyval)
           (py_repr : pyval -> string) (fold_case : bool) (repo_path : repo)
  : result AnalysisRecord :=
  let structure := get_project_structure repo_path 3 in
  let readme := find_readme repo_path in
  let api_specs := find_api_specs json_loads yaml_safe_load py_repr fold_case repo_path in
  code_analysis <- analyze_codebase json_loads fold_case repo_path ;;
  Ok {| structure := structure;
        readme := readme;
        api_specs_text := api_specs;
        code_analysis := code_analysis;
        config_files := find_config_files json_loads py_repr repo_path |}.

(** * Specification-side vocabulary and sample repositories *)

(** A line is blank when nothing is left of it after stripping, a comment
    when it begins with ['#']. *)
Definition is_blank (line : string) : bool := PyStr.strip line =? "".
Definition is_comment (line : string) : bool := PyStr.startswith "#" line.
Definition is_package (line : string) : bool :=
  negb (is_blank line) && negb (is_comment line).

Definition file_lines (content : string) : list string :=
  PyStr.split_char nl content.

(** The lines of a requirements file by what they are, read off the first
    character that is not white space: nothing but white space, a comment
    (['#'] first), or a requirement. *)
Inductive line_kind : Type := BlankLine | CommentLine | RequirementLine.

Fixpoint first_visible (line : string) : option ascii :=
  match line with
  | EmptyString => None
  | String c line' => if PyStr.is_space c then first_visible line' else Some c
  end.

Definition kind_of_line (line : string) : line_kind :=
  match first_visible line with
  | None => BlankLine
  | Some c => if Ascii.eqb c "#" then CommentLine else RequirementLine
  end.

Definition is_requirement (line : string) : bool :=
  match kind_of_line line with
  | RequirementLine => true
  | _ => false
  end.

Definition is_comment_line (line : string) : bool :=
  match kind_of_line line with
  | CommentLine => true
  | _ => false
  end.

(** A comment that does not open the line: white space stands before its
    ['#']. *)
Definition is_indented_comment (line : string) : bool :=
  is_comment_line line && negb (PyStr.startswith "#" line).

(** Three requirements and two comments, the comments indented. *)
Definition requirements_with_indented_comments : string :=
  "flask==2.0" ++ newline ++ "  # web" ++ newline ++ "requests>=2.1" ++ newline
  ++ String (ascii_of_nat 9) "# tools" ++ newline ++ "click~=8.0".

(** Three requirements and two comments, the comments opening their line. *)
Definition requirements_with_comments : string :=
  "flask==2.0" ++ newline ++ "# web" ++ newline ++ "requests>=2.1" ++ newline
  ++ "# tools" ++ newline ++ "click~=8.0".

(** A line that opens with white space and whose first visible character
    is ['#']. *)
Definition indented_comment (line : string) : bool :=
  match line with
  | EmptyString => false
  | String c _ => PyStr.is_space c
  end && PyStr.startswith "#" (PyStr.lstrip line).

Definition sample_indented : string :=
  "flask" ++ newline ++ "  # pinned below" ++ newline ++ "click".

Definition root_names (repo_path : repo) : list string :=
  map name (repo_entries repo_path).

Definition repo_with_nested_entry_files : repo :=
  {| repo_name := "svc";
     repo_entries :=
       [ Dir "src" [File "app.py" ""; File "main.py" ""; File "index.js" ""];
         File "main.py" "print(1)";
         Dir "cmd" [File "main.go" ""] ] |}.

Definition repo_without_config : repo :=
  {| repo_name := "svc";
     repo_entries := [ File "notes.txt" "todo";
                       Dir "conf" [File "config.json" ""; File "Makefile" ""] ] |}.

(** The names of the keys of a mapping that are strings. *)
Definition key_names (d : list (pyval * pyval)) : list string :=
  flat_map (fun kv => match fst kv with
                      | PStr s => [s]
                      | _ => []
                      end) d.

(** What the Python-style manifest at the root lists: a name per line that
    is neither blank nor a comment; nothing when there is no such file. *)
Definition python_names (repo_path : repo) : list string :=
  match child (repo_entries repo_path) "requirements.txt" with
  | Some (File _ content) => map dependency_name (filter is_package (file_lines content))
  | _ => []
  end.

(** The keys of the direct-dependency mapping of the Node-style manifest at
    the root; nothing when the file is absent, does not parse, or holds no
    such mapping. *)
Definition direct_dependencies (json_loads : string -> option pyval)
           (repo_path : repo) : list string :=
  match child (repo_entries repo_path) "package.json" with
  | Some (File _ content) =>
      match json_loads content with
      | Some (PDict d) =>
          match Py.lookup "dependencies" d with
          | Some (PDict deps) => key_names deps
          | _ => []
          end
      | _ => []
      end
  | _ => []
  end.

Definition requirements_is_dir (repo_path : repo) : bool :=
  match child (repo_entries repo_path) "requirements.txt" with
  | Some (Dir _ _) => true
  | _ => false
  end.

(** A stand-in for [json.loads] on the manifests of the sample repositories. *)
Definition sample_json (content : string) : option pyval :=
  if content =? "express-manifest" then
    Some (PDict [ (PStr "name", PStr "svc");
                  (PStr "dependencies",
                   PDict [ (PStr "express", PStr "^4"); (PStr "cors", PStr "^2") ]);
                  (PStr "scripts", PDict [ (PStr "start", PStr "node index.js") ]);
                  (PStr "engines", PDict [ (PStr "node", PStr ">=18") ]) ])
  else if content =? "openapi-document" then
    Some (PDict [ (PStr "info", PDict [ (PStr "title", PStr "Pets") ]);
                  (PStr "paths", PDict [ (PStr "/pets", PDict []);
                                         (PStr "/pets/{id}", PDict []) ]) ])
  else if content =? "array-document" then Some (PList [PStr "info"; PInt 1])
  else None.


(** A section of the assembled context: its label in bold above its data,
    present when the data is not empty. *)
Definition section_block (label data : string) : list string :=
  if data =? "" then [] else [label ++ newline ++ data].

Definition readme_section (content : option string) : list string :=
  match content with
  | Some text => if text =? "" then [] else [readme_block text]
  | None => []
  end.

(** The five sections in their fixed order. *)
Definition assembled_blocks (analysis : AnalysisRecord) : list string :=
  (section_block "**Project Structure:**" (structure analysis)
   ++ readme_section (readme analysis)
   ++ section_block "**API Specifications:**" (api_specs_text analysis)
   ++ section_block "**Code Analysis:**" (code_analysis analysis)
   ++ section_block "**Configuration:**" (config_files analysis))%list.

(** The markers that stand for "nothing found". *)
Definition is_placeholder (data : string) : bool :=
  (data =? no_api_marker) || (data =? no_config_marker).

Definition empty_repo : repo := {| repo_name := "svc"; repo_entries := [] |}.

(** What [_analyze_repository] builds for [empty_repo]. *)
Definition analysis_of_empty_repo : AnalysisRecord :=
  {| structure := "svc";
     readme := None;
     api_specs_text := "No API specifications found";
     code_analysis := "";
     config_files := "No configuration files found" |}.

Definition long_readme : string :=
  String.concat "" (repeat "docweave " 555) ++ "notes".

Definition analysis_with_long_readme : AnalysisRecord :=
  {| structure := "svc";
     readme := Some long_readme;
     api_specs_text := no_api_marker;
     code_analysis := "Programming Languages: Python";
     config_files := no_config_marker |}.

(** Siblings in ascending order of their names. *)
Definition name_le (x y : node) : Prop := (name x <=? name y) = true.

(** The lines of one directory level drawn without descending: every item
    but the final one behind the middle connector, the final one behind the
    last-sibling connector. *)
Definition level_lines (items : list node) : list string :=
  append (map (fun item => mid_connector ++ name item) (removelast items))
         (last_connector ++ name (last items (File "" ""))).

(** The entries of the root that the renderer lists, in its order. *)
Definition listed_items (repo_path : repo) : list node :=
  sorted (filter listed (repo_entries repo_path)).

Definition uses_last_connector (line : string) : bool :=
  PyStr.startswith last_connector line.

Definition repo_with_hidden_entries_only : repo :=
  {| repo_name := "svc";
     repo_entries := [ File ".gitignore" "venv";
                       Dir "node_modules" [File "index.js" ""];
                       Dir ".git" [File "HEAD" ""] ] |}.

Definition repo_with_tree : repo :=
  {| repo_name := "svc";
     repo_entries := [ File "setup.py" "";
                       Dir "src" [File "main.py" ""; Dir "pkg" [File "a.py" ""]];
                       File ".env" "";
                       File "README.md" "docs" ] |}.

Definition has_key (k : string) (d : list (pyval * pyval)) : bool :=
  match Py.lookup k d with
  | Some _ => true
  | None => false
  end.

(** The shape the structured extraction expects of a parsed specification:
    a mapping with an [info] or a [paths] section, each of them, when
    present, a mapping itself, and the sample paths strings. *)
Definition expected_shape (v : pyval) : bool :=
  match v with
  | PDict d =>
      match Py.lookup "info" d with
      | None | Some (PDict _) => true
      | Some _ => false
      end
      && match Py.lookup "paths" d with
         | None => true
         | Some (PDict p) =>
             match Py.strings (firstn 3 (map fst p)) with
             | Ok _ => true
             | Raise _ => false
             end
         | Some _ => false
         end
      && (has_key "info" d || has_key "paths" d)
  | _ => false
  end.

(** The parser [_extract_api_info] picks for a file. *)
Definition loader (json_loads yaml_safe_load : string -> option pyval)
           (spec_file : node) : string -> option pyval :=
  if suffix spec_file =? ".json" then json_loads else yaml_safe_load.

(** What the structured extraction adds below the header of a file. *)
Definition extraction_lines (json_loads yaml_safe_load : string -> option pyval)
           (py_repr : pyval -> string) (spec_file : node) : list string :=
  match _extract_api_info json_loads yaml_safe_load py_repr spec_file with
  | Some content => if content =? "" then [] else [content]
  | None => []
  end.

(** A stand-in for [yaml.safe_load]: an empty document is [None]. *)
Definition sample_yaml (content : string) : option pyval :=
  if content =? "" then Some PNone else sample_json content.

(** The name of an entry as the platform's glob compares it. *)
Definition glob_name (fold_case : bool) (e : node) : string :=
  if fold_case then PyStr.lower (name e) else name e.

(** The entries the specification describes for the first pass: a keyword in
    the name, whatever its case, and one of the three extensions. *)
Definition keyword_entries (repo_path : repo) : list node :=
  filter (fun e => is_spec_suffix e
                   && (PyStr.contains "openapi" (PyStr.lower (name e))
                       || PyStr.contains "swagger" (PyStr.lower (name e))))
         (walk_entries (repo_entries repo_path)).

Definition repo_with_specs : repo :=
  {| repo_name := "svc";
     repo_entries :=
       [ Dir "api" [File "openapi-swagger.json" ""; File "openapi.json" "array-document"];
         File "OpenAPI.yaml" "" ] |}.

(** A keyword without a wildcard in it. *)
Fixpoint no_star (kw : string) : bool :=
  match kw with
  | EmptyString => true
  | String c kw' => negb (Ascii.eqb c "*") && no_star kw'
  end.

(** * Further vocabulary *)

(** The lines one known name adds to the configuration report. *)
Definition config_block (json_loads : string -> option pyval)
           (py_repr : pyval -> string) (entries : list node) (pattern : string)
  : list string :=
  config_step json_loads py_repr entries [] pattern.


(** A README candidate that can be read: a file, not a directory. *)
Definition readable (entries : list node) (pattern : string) : option string :=
  match child entries pattern with
  | Some (File _ content) => Some content
  | _ => None
  end.

(** The three version pins [dependency_name] cuts at. *)
Definition version_pins : list string := ["=="; ">="; "~="].

Definition repo_with_config : repo :=
  {| repo_name := "svc";
     repo_entries :=
       [ File "setup.py" "setup(python_requires='>=3.8')";
         Dir "Makefile" [];
         File "package.json" "express-manifest";
         Dir "requirements.txt" [File "base.txt" "flask"];
         File "README.rst" "title";
         Dir "README.md" [] ] |}.

(** An entry with what the renderer never shows taken out, at every depth. *)
Fixpoint prune (n : node) : node :=
  match n with
  | File _ _ => n
  | Dir dir_name entries => Dir dir_name (filter listed (map prune entries))
  end.

Definition prune_entries (entries : list node) : list node :=
  filter listed (map prune entries).

(** A manifest of the framework table that is a directory at the root. *)
Definition manifest_is_dir (repo_path : repo) (file_name : string) : bool :=
  match child (repo_entries repo_path) file_name with
  | Some (Dir _ _) => true
  | _ => false
  end.

Definition any_manifest_is_dir (repo_path : repo) : bool :=
  existsb (manifest_is_dir repo_path) (map fst framework_indicators).

(** The frameworks one row of the table reports: the title-cased tokens
    found in the lower-cased text of the manifest, in the order of the row. *)
Definition frameworks_of (repo_path : repo) (indicator : string * list string)
  : list string :=
  match child (repo_entries repo_path) (fst indicator) with
  | Some (File _ content) =>
      map PyStr.title
          (filter (fun token => PyStr.contains token (PyStr.lower content))
                  (snd indicator))
  | _ => []
  end.

(** The language a file stands for, if any; directories stand for none. *)
Definition language_of_entry (e : node) : option string :=
  match e with
  | File _ _ => language_of (suffix e)
  | Dir _ _ => None
  end.

Definition repo_with_sources : repo :=
  {| repo_name := "svc";
     repo_entries :=
       [ File "app.py" ""; Dir "lib.py" [File "util.js" ""; File "x.py" ""];
         File "notes.txt" ""; File ".py" ""; File "Main.JAVA" "" ] |}.

Definition repo_with_dir_manifest : repo :=
  {| repo_name := "svc";
     repo_entries := [ Dir "go.mod" []; File "main.go" "package main" ] |}.

(** One round of the loop of [_detect_languages]. *)
Definition language_step (found_languages : list string) (file_path : node)
  : list string :=
  match file_path, language_of (suffix file_path) with
  | File _ _, Some language => set_add found_languages language
  | _, _ => found_languages
  end.

(** The header lines of the second and third pass of [find_api_specs]. *)
Definition graphql_header (schema_file : node) : string :=
  "GraphQL Schema: " ++ name schema_file.

Definition is_graphql_suffix (schema_file : node) : bool :=
  mem (suffix schema_file) [".graphql"; ".gql"].

Definition graphql_files (fold_case : bool) (repo_path : repo) : list node :=
  (rglob fold_case (repo_entries repo_path) "*.graphql"
   ++ rglob fold_case (repo_entries repo_path) "*schema*")%list.

Definition api_docs (fold_case : bool) (repo_path : repo) : list node :=
  (rglob fold_case (repo_entries repo_path) "*api*"
   ++ rglob fold_case (repo_entries repo_path) "*docs*")%list.

Definition docs_lines (fold_case : bool) (doc_path : node) : list string :=
  match doc_path with
  | Dir _ entries =>
      match rglob fold_case entries "*.md" with
      | [] => []
      | _ => ["API Documentation: " ++ name doc_path ++ "/"]
      end
  | File _ _ => []
  end.

Definition is_header (line : string) : bool :=
  PyStr.startswith "OpenAPI Spec: " line
  || PyStr.startswith "GraphQL Schema: " line
  || PyStr.startswith "API Documentation: " line.

(** The first element of a list, if there is one, satisfies [P]. *)
Definition head_ok {A : Type} (P : A -> Prop) (l : list A) : Prop :=
  match l with
  | [] => True
  | x :: _ => P x
  end.

(** [s.endswith(p)] *)
Fixpoint ends_with (p s : string) : bool :=
  (s =? p) || match s with
              | EmptyString => false
              | String _ s' => ends_with p s'
              end.

Definition repo_with_schemas : repo :=
  {| repo_name := "svc";
     repo_entries :=
       [ File "types.gql" ""; File "schema.graphql" ""; File "schema.gql" "";
         Dir "docs" [Dir "guide" [File "intro.md" ""]];
         Dir "api-docs" [File "index.md" ""];
         Dir "api" [File "readme.txt" ""] ] |}.

(** The two blocks every analysed repository has. *)
Definition api_section (text : string) : list string :=
  ["**API Specifications:**" ++ newline ++ text].

Definition config_section (text : string) : list string :=
  ["**Configuration:**" ++ newline ++ text].

(** One round of the outer loop of [_detect_frameworks]. *)
Definition framework_step (repo_path : repo) (acc : result (list string))
           (indicator : string * list string) : result (list string) :=
  frameworks <- acc ;;
  let (file_name, framework_list) := indicator in
  match child (repo_entries repo_path) file_name with
  | Some file_path =>
      content <- read_text file_path ;;
      Ok (fold_left
            (fun frameworks framework =>
               if PyStr.contains framework (PyStr.lower content)
               then append frameworks (PyStr.title framework)
               else frameworks)
            framework_list frameworks)
  | None => Ok frameworks
  end.

(** ** cli.py and the clone step: names, keys and the preview *)

(** [s.replace(old, new)] for a non-empty [old]: the occurrences of [old]
    are replaced from left to right, the search resuming behind each one;
    [skip] counts the characters of the current occurrence still to pass. *)
Fixpoint replace_from (skip : nat) (old new s : string) : string :=
  match s with
  | EmptyString => EmptyString
  | String c s' =>
      match skip with
      | S k => replace_from k old new s'
      | O =>
          if String.prefix old s
          then new ++ replace_from (String.length old - 1) old new s'
          else String c (replace_from 0 old new s')
      end
  end.

Definition replace (old new s : string) : string := replace_from 0 old new s.

(** [git_url.split('/')[-1].replace('.git', '')], the name under which
    [_clone_repository] checks the repository out and from which [main]
    derives its default output path. *)
Definition repo_name_of_url (git_url : string) : string :=
  replace ".git" "" (last (PyStr.split_char "/" git_url) "").

(** [args.output] when it is given and not empty, [f"{repo_name}_docs.md"]
    otherwise. *)
Definition output_path (output : option string) (git_url : string) : string :=
  match output with
  | Some path => if PyStr.truthy path then path
                 else repo_name_of_url git_url ++ "_docs.md"
  | None => repo_name_of_url git_url ++ "_docs.md"
  end.

(** [a or b] on optional strings: [a] when it is truthy, [b] otherwise. *)
Definition py_or (a b : option string) : option string :=
  match a with
  | Some s => if PyStr.truthy s then a else b
  | None => b
  end.

(** [not v] for an optional string. *)
Definition falsy (v : option string) : bool :=
  match v with
  | Some s => negb (PyStr.truthy s)
  | None => true
  end.

(** The key [main] settles on:
    [args.api_key or os.getenv("NVIDIA_API_KEY") or os.getenv("OPENAI_API_KEY")];
    [None] where [main] prints its error and exits with status 1. *)
Definition cli_api_key (arg nvidia openai : option string) : option string :=
  let api_key := py_or (py_or arg nvidia) openai in
  if falsy api_key then None else api_key.

(** [ServiceDocGenerator.__init__]: the key it keeps,
    [api_key or os.getenv("NVIDIA_API_KEY")]; [None] where it raises
    [ValueError]. *)
Definition init_api_key (api_key nvidia : option string) : option string :=
  let key := py_or api_key nvidia in
  if falsy key then None else key.

(** The preview [main] prints when verbose:
    [documentation[:300] + "..." if len(documentation) > 300 else documentation]. *)
Definition preview (documentation : string) : string :=
  if (300 <? String.length documentation)%nat
  then PyStr.slice_to 300 documentation ++ "..."
  else documentation.

(** No character of [s] is [c]. *)
Fixpoint lacks (c : ascii) (s : string) : bool :=
  match s with
  | EmptyString => true
  | String a s' => negb (Ascii.eqb a c) && lacks c s'
  end.

(** * Properties *)

(** ** Strings *)

Lemma rstrip_keeps_visible_head (c : ascii) (s : string) :
  PyStr.is_space c = false -> PyStr.rstrip (String c s) <> "".
Proof.
  intros Hc. simpl. destruct (PyStr.rstrip s); [rewrite Hc|]; discriminate.
Qed.

Lemma lstrip_head_visible (s : string) (c : ascii) (t : string) :
  PyStr.lstrip s = String c t -> PyStr.is_space c = false.
Proof.
  induction s as [|a s IH]; simpl; [discriminate|].
  destruct (PyStr.is_space a) eqn:Ha; [exact IH|].
  intros E. injection E as <- _. exact Ha.
Qed.

Lemma strip_nonempty_of_visible (s : string) (c : ascii) (t : string) :
  PyStr.lstrip s = String c t -> PyStr.truthy (PyStr.strip s) = true.
Proof.
  intros E. unfold PyStr.truthy, PyStr.strip. rewrite E.
  apply negb_true_iff, String.eqb_neq.
  apply rstrip_keeps_visible_head. exact (lstrip_head_visible _ _ _ E).
Qed.

Lemma startswith_cons (c : ascii) (p s : string) (a : ascii) :
  PyStr.startswith (String c p) (String a s) = true -> a = c.
Proof.
  unfold PyStr.startswith. simpl.
  destruct (ascii_dec c a) as [->|]; [reflexivity|discriminate].
Qed.

Lemma startswith_hash_inv (s : string) :
  PyStr.startswith "#" s = true -> exists t, s = String "#" t.
Proof.
  destruct s as [|a s]; [discriminate|].
  intros H. apply startswith_cons in H. subst a. now exists s.
Qed.

(** ** requirements.txt *)

Lemma requirement_lines_length (content : string) :
  List.length (requirement_lines content)
  = List.length (filter is_package (file_lines content)).
Proof.
  unfold requirement_lines. rewrite length_map. reflexivity.
Qed.

Lemma extract_python_info_requirements (content : string) :
  _extract_python_info (File "requirements.txt" content)
  = Some ("Dependencies: "
            ++ PyStr.of_nat (List.length (filter is_package (file_lines content)))
            ++ " packages").
Proof.
  unfold _extract_python_info. simpl.
  now rewrite requirement_lines_length.
Qed.

Lemma first_visible_lstrip (line : string) :
  first_visible line = match PyStr.lstrip line with
                       | EmptyString => None
                       | String c _ => Some c
                       end.
Proof.
  induction line as [|c line IH]; [reflexivity|].
  cbn [first_visible PyStr.lstrip]. now destruct (PyStr.is_space c).
Qed.

Lemma first_visible_blank (line : string) :
  first_visible line = None <-> is_blank line = true.
Proof.
  rewrite first_visible_lstrip. unfold is_blank, PyStr.strip.
  destruct (PyStr.lstrip line) as [|c t] eqn:E.
  - split; reflexivity.
  - split; [discriminate|]. intros H. apply String.eqb_eq in H.
    pose proof (lstrip_head_visible _ _ _ E) as Hc.
    now destruct (rstrip_keeps_visible_head c t Hc).
Qed.

Lemma counted_line_kinds (line : string) :
  is_package line = is_requirement line || is_indented_comment line.
Proof.
  unfold is_package, is_requirement, is_indented_comment, is_comment_line,
    kind_of_line, is_comment.
  pose proof (first_visible_blank line) as Hblank.
  destruct (first_visible line) as [c|] eqn:E.
  - assert (Hb : is_blank line = false).
    { destruct (is_blank line); [|reflexivity].
      destruct Hblank as [_ H]. now discriminate H. }
    rewrite Hb.
    destruct (Ascii.eqb c "#") eqn:Ec;
      destruct (PyStr.startswith "#" line) eqn:S; try reflexivity.
    exfalso. apply startswith_hash_inv in S as [t ->].
    cbn in E. injection E as <-. discriminate Ec.
  - destruct Hblank as [H _]. now rewrite (H eq_refl).
Qed.

Lemma filter_length_or {A : Type} (p q : A -> bool) (l : list A) :
  (forall x, p x = true -> q x = false) ->
  List.length (filter (fun x => p x || q x) l)
  = List.length (filter p l) + List.length (filter q l).
Proof.
  intros Hpq. induction l as [|x l IH]; [reflexivity|].
  cbn [filter]. destruct (p x) eqn:P.
  - rewrite (Hpq x P). cbn [orb List.length]. now rewrite IH.
  - cbn [orb]. destruct (q x); cbn [List.length]; rewrite IH; lia.
Qed.

Lemma requirement_or_comment (line : string) :
  is_requirement line = true -> is_indented_comment line = false.
Proof.
  unfold is_requirement, is_indented_comment, is_comment_line.
  now destruct (kind_of_line line).
Qed.

(** C9, on the code: the count reported for requirements.txt is the number
    of requirement lines plus the number of comment lines whose ['#'] is
    indented.  Three requirements and two comments are reported as 3 packages
    when the comments open their lines, and as 5 when they are indented. *)
Theorem extract_python_info_counts_indented_comments (content : string) :
  _extract_python_info (File "requirements.txt" content)
  = Some ("Dependencies: "
            ++ PyStr.of_nat
                 (List.length (filter is_requirement (file_lines content))
                  + List.length (filter is_indented_comment (file_lines content)))
            ++ " packages")
  /\ (List.length (filter is_requirement (file_lines content)) = 3 ->
      filter is_indented_comment (file_lines content) = [] ->
      _extract_python_info (File "requirements.txt" content)
      = Some "Dependencies: 3 packages")
  /\ List.length (filter is_requirement
                         (file_lines requirements_with_indented_comments)) = 3
  /\ List.length (filter is_comment_line
                         (file_lines requirements_with_indented_comments)) = 2
  /\ List.length (file_lines requirements_with_indented_comments) = 5
  /\ _extract_python_info
       (File "requirements.txt" requirements_with_indented_comments)
     = Some "Dependencies: 5 packages".
Proof.
  assert (Hcount : _extract_python_info (File "requirements.txt" content)
    = Some ("Dependencies: "
              ++ PyStr.of_nat
                   (List.length (filter is_requirement (file_lines content))
                    + List.length (filter is_indented_comment (file_lines content)))
              ++ " packages")).
  { rewrite extract_python_info_requirements.
    rewrite (filter_ext is_package
               (fun line => is_requirement line || is_indented_comment line)
               counted_line_kinds).
    now rewrite (filter_length_or _ _ _ requirement_or_comment). }
  split; [exact Hcount|]. split.
  - intros H3 Hnone. rewrite Hcount, H3, Hnone. reflexivity.
  - repeat split; reflexivity.
Qed.

Lemma extract_python_info_counts_indented_comments_witness :
  List.length (filter is_requirement (file_lines requirements_with_comments)) = 3
  /\ List.length (filter is_comment_line (file_lines requirements_with_comments)) = 2
  /\ _extract_python_info (File "requirements.txt" requirements_with_comments)
     = Some "Dependencies: 3 packages".
Proof.
  split; [reflexivity|]. split; [reflexivity|].
  apply (proj1 (proj2 (extract_python_info_counts_indented_comments
                         requirements_with_comments))); reflexivity.
Defined.

Lemma split_char_nonempty (c : ascii) (s : string) : PyStr.split_char c s <> [].
Proof.
  destruct s as [|a s]; simpl; [discriminate|].
  destruct (Ascii.eqb a c); [discriminate|].
  destruct (PyStr.split_char c s); discriminate.
Qed.

Lemma split_char_piece (c : ascii) (s piece : string) :
  In piece (PyStr.split_char c s) -> PyStr.split_char c piece = [piece].
Proof.
  revert piece. induction s as [|a s IH]; simpl; intros piece Hin.
  - destruct Hin as [<-|[]]. reflexivity.
  - destruct (Ascii.eqb a c) eqn:Hac.
    + destruct Hin as [<-|Hin]; [reflexivity|now apply IH].
    + destruct (PyStr.split_char c s) as [|h t] eqn:Hs.
      * now destruct (split_char_nonempty c s).
      * destruct Hin as [<-|Hin].
        -- simpl. rewrite Hac, (IH h); [reflexivity|now left].
        -- apply IH. now right.
Qed.

Lemma indented_comment_is_package (line : string) :
  indented_comment line = true ->
  is_blank line = false /\ is_comment line = false
  /\ is_comment (PyStr.lstrip line) = true.
Proof.
  unfold indented_comment. intros H. apply andb_true_iff in H as [Hsp Hhash].
  destruct (startswith_hash_inv _ Hhash) as [t Ht].
  repeat split.
  - pose proof (strip_nonempty_of_visible _ _ _ Ht) as Hs.
    unfold PyStr.truthy in Hs. now apply negb_true_iff in Hs.
  - destruct line as [|c rest]; [discriminate|].
    unfold is_comment. destruct (PyStr.startswith "#" (String c rest)) eqn:E; [|reflexivity].
    apply startswith_cons in E. subst c. discriminate.
  - exact Hhash.
Qed.

(** C10: in both readers of requirements.txt a line that begins with white
    space and whose first visible character is ['#'] passes the blank test
    (made on the stripped line) and the comment test (made on the raw line),
    so it is counted among the packages and named in the summary. *)
Theorem indented_comment_counted_as_dependency
        (json_loads : string -> option pyval) (content line root : string) :
  In line (file_lines content) ->
  indented_comment line = true ->
  (is_blank line = false /\ is_comment line = false
   /\ is_comment (PyStr.lstrip line) = true)
  /\ In (PyStr.strip line) (requirement_lines content)
  /\ In (dependency_name line) (requirement_names content)
  /\ _extract_python_info (File "requirements.txt" line)
     = Some "Dependencies: 1 packages"
  /\ _analyze_dependencies json_loads
       {| repo_name := root; repo_entries := [File "requirements.txt" line] |}
     = Ok (dependency_name line).
Proof.
  intros Hin Hind.
  pose proof (indented_comment_is_package _ Hind) as Hpk.
  destruct Hpk as (Hb & Hc & Hl).
  assert (Hkeep : is_package line = true)
    by (unfold is_package; now rewrite Hb, Hc).
  assert (Hone : file_lines line = [line])
    by (exact (split_char_piece _ _ _ Hin)).
  split; [now repeat split|].
  split; [unfold requirement_lines; apply in_map; apply filter_In; now split|].
  split; [unfold requirement_names; apply in_map; apply filter_In; now split|].
  split.
  - rewrite extract_python_info_requirements, Hone. simpl. now rewrite Hkeep.
  - unfold _analyze_dependencies, dependencies, requirement_names. simpl.
    fold (file_lines line). rewrite Hone. simpl.
    change (PyStr.truthy (PyStr.strip line) && negb (PyStr.startswith "#" line))
      with (is_package line).
    rewrite Hkeep. simpl. unfold Py.join. simpl.
    now destruct (dependency_name line).
Qed.

Lemma indented_comment_counted_as_dependency_witness :
  In "  # pinned below" (file_lines sample_indented)
  /\ indented_comment "  # pinned below" = true
  /\ _extract_python_info (File "requirements.txt" sample_indented)
     = Some "Dependencies: 3 packages"
  /\ In "# pinned below" (requirement_lines sample_indented)
  /\ In "  # pinned below" (requirement_names sample_indented).
Proof.
  assert (Hin : In "  # pinned below" (file_lines sample_indented))
    by (right; left; reflexivity).
  assert (Hind : indented_comment "  # pinned below" = true) by reflexivity.
  pose proof (indented_comment_counted_as_dependency
                (fun _ => None) sample_indented "  # pinned below" "svc" Hin Hind)
    as (_ & Hl & Hn & _).
  split; [exact Hin|]. split; [exact Hind|]. split; [reflexivity|].
  split; [exact Hl|exact Hn].
Defined.

(** ** Probing the root for known file names *)

Lemma child_none_iff (entries : list node) (file_name : string) :
  child entries file_name = None <-> ~ In file_name (map name entries).
Proof.
  unfold child. induction entries as [|e es IH]; simpl.
  - tauto.
  - destruct (String.eqb_spec (name e) file_name) as [E|E].
    + split; [discriminate|]. intros H. destruct H. now left.
    + rewrite IH. tauto.
Qed.

Lemma exists_iff (entries : list node) (file_name : string) :
  exists_ entries file_name = true <-> In file_name (map name entries).
Proof.
  unfold exists_. pose proof (child_none_iff entries file_name) as H.
  destruct (child entries file_name).
  - split; [|reflexivity]. intros _.
    destruct (in_dec string_dec file_name (map name entries)) as [Hin|Hn];
      [exact Hin|]. apply H in Hn. discriminate.
  - split; [discriminate|]. intros Hin. now apply H in Hin.
Qed.

Lemma fold_left_append_filter {A : Type} (p : A -> bool) (l acc : list A) :
  fold_left (fun acc x => if p x then append acc x else acc) l acc
  = (acc ++ filter p l)%list.
Proof.
  revert acc. induction l as [|x l IH]; intros acc; simpl.
  - now rewrite app_nil_r.
  - rewrite IH. destruct (p x); [|reflexivity].
    unfold append. now rewrite <- app_assoc.
Qed.

Lemma find_entry_points_filter (repo_path : repo) :
  _find_entry_points repo_path
  = filter (exists_ (repo_entries repo_path)) common_entry_files.
Proof.
  unfold _find_entry_points. now rewrite fold_left_append_filter.
Qed.

(** C6: the entry points are the names of the canonical list that exist at
    the root, in the order of that list; when main.py is the only such name
    at the root the result is ["main.py"], whatever the subdirectories
    hold. *)
Theorem find_entry_points_main_only (repo_path : repo) :
  _find_entry_points repo_path
  = filter (fun f => if in_dec string_dec f (root_names repo_path)
                     then true else false) common_entry_files
  /\ (In "main.py" (root_names repo_path) ->
      (forall f, In f common_entry_files -> In f (root_names repo_path) ->
                 f = "main.py") ->
      _find_entry_points repo_path = ["main.py"]).
Proof.
  rewrite find_entry_points_filter. split.
  - apply filter_ext. intros f.
    destruct (in_dec string_dec f (root_names repo_path)) as [Hin|Hn].
    + now apply exists_iff.
    + destruct (exists_ (repo_entries repo_path) f) eqn:E; [|reflexivity].
      apply exists_iff in E. contradiction.
  - intros Hmain Honly.
    transitivity (filter (String.eqb "main.py") common_entry_files); [|reflexivity].
    apply filter_ext_in. intros f Hf.
    destruct (String.eqb_spec "main.py" f) as [<-|Hne].
    + now apply exists_iff.
    + destruct (exists_ (repo_entries repo_path) f) eqn:E; [|reflexivity].
      apply exists_iff in E. apply (Honly f Hf) in E. congruence.
Qed.

Lemma find_entry_points_main_only_witness :
  _find_entry_points repo_with_nested_entry_files = ["main.py"].
Proof.
  apply (proj2 (find_entry_points_main_only repo_with_nested_entry_files)).
  - simpl. tauto.
  - intros f Hf Hin. simpl in Hin.
    destruct Hin as [<-|[<-|[<-|[]]]]; [exfalso|reflexivity|exfalso];
      simpl in Hf; intuition discriminate.
Defined.

(** ** The configuration scan *)

Section ConfigScan.

Variable json_loads : string -> option pyval.
Variable py_repr : pyval -> string.

Lemma config_step_absent (entries : list node) (acc : list string) (pattern : string) :
  child entries pattern = None ->
  config_step json_loads py_repr entries acc pattern = acc.
Proof. intros H. unfold config_step. now rewrite H. Qed.

Lemma config_fold_absent (entries : list node) (patterns : list string)
      (acc : list string) :
  (forall p, In p patterns -> ~ In p (map name entries)) ->
  fold_left (config_step json_loads py_repr entries) patterns acc = acc.
Proof.
  revert acc. induction patterns as [|p ps IH]; intros acc H; simpl.
  - reflexivity.
  - rewrite config_step_absent.
    + apply IH. intros q Hq. apply H. now right.
    + apply child_none_iff, H. now left.
Qed.

(** C8: with none of the sixteen known configuration file names at the
    root, the scan returns the placeholder marker, which is not empty. *)
Theorem find_config_files_none (repo_path : repo) :
  (forall p, In p config_patterns -> ~ In p (root_names repo_path)) ->
  find_config_files json_loads py_repr repo_path = "No configuration files found"
  /\ find_config_files json_loads py_repr repo_path <> ""
  /\ List.length config_patterns = 16.
Proof.
  intros H. unfold find_config_files, config_lines.
  rewrite (config_fold_absent _ _ _ H).
  repeat split. discriminate.
Qed.

End ConfigScan.

Lemma find_config_files_none_witness :
  find_config_files (fun _ => None) (fun _ => "") repo_without_config
  = "No configuration files found".
Proof.
  apply (find_config_files_none (fun _ => None) (fun _ => "") repo_without_config).
  intros p Hp Hin. simpl in Hin.
  destruct Hin as [<-|[<-|[]]]; simpl in Hp; intuition discriminate.
Defined.

(** ** The dependency summary *)

#[local] Arguments firstn : simpl never.

Lemma strings_map_PStr (l : list string) : Py.strings (map PStr l) = Ok l.
Proof.
  induction l as [|s l IH]; simpl; [reflexivity|]. now rewrite IH.
Qed.

Lemma str_keys_names (d : list (pyval * pyval)) :
  Py.str_keys (PDict d) = true -> map fst d = map PStr (key_names d).
Proof.
  induction d as [|[k v] d IH]; simpl; [reflexivity|].
  intros H. apply andb_true_iff in H as [Hk Hd].
  destruct k; try discriminate. simpl. f_equal. now apply IH.
Qed.

Lemma str_keys_lookup (k : string) (d : list (pyval * pyval)) (v : pyval) :
  Py.str_keys (PDict d) = true -> Py.lookup k d = Some v -> Py.str_keys v = true.
Proof.
  unfold Py.lookup. induction d as [|[k' v'] d IH]; simpl; [discriminate|].
  intros H. apply andb_true_iff in H as [Hk Hd].
  destruct (Py.is_key k k').
  - intros E. injection E as <-. now destruct k'.
  - now apply IH.
Qed.


Lemma summary_join (names : list string) :
  match map PStr names with
  | [] => Ok ""
  | _ => Py.join ", " (firstn 10 (map PStr names))
  end = Ok (PyStr.join ", " (firstn 10 names)).
Proof.
  destruct names as [|x xs]; [reflexivity|].
  cbn [map]. change (PStr x :: map PStr xs) with (map PStr (x :: xs)).
  unfold Py.join. now rewrite firstn_map, strings_map_PStr.
Qed.

Ltac nothing_added :=
  rewrite ?firstn_nil; simpl; rewrite ?firstn_nil; simpl;
  rewrite ?app_nil_r; reflexivity.

Section DependencySummary.

Variable json_loads : string -> option pyval.

(** [json] documents only have string keys. *)
Hypothesis json_loads_str_keys :
  forall content v, json_loads content = Some v -> Py.str_keys v = true.

Lemma package_contribution (acc : list pyval) (package_file : node) :
  try_except
    (deps <- package_keys json_loads package_file ;;
     Ok (extend acc (firstn 5 deps)))
    acc
  = (acc ++ map PStr
       (firstn 5
          match package_file with
          | File _ content =>
              match json_loads content with
              | Some (PDict d) =>
                  match Py.lookup "dependencies" d with
                  | Some (PDict deps) => key_names deps
                  | _ => []
                  end
              | _ => []
              end
          | Dir _ _ => []
          end))%list.
Proof.
  unfold package_keys, parse, extend.
  destruct package_file as [n content|n sub]; simpl; [|nothing_added].
  destruct (json_loads content) as [v|] eqn:Hv; simpl; [|nothing_added].
  pose proof (json_loads_str_keys _ _ Hv) as Hk.
  destruct v; simpl; try nothing_added.
  destruct (Py.lookup "dependencies" d) as [deps|] eqn:Hd; simpl;
    [|nothing_added].
  pose proof (str_keys_lookup _ _ _ Hk Hd) as Hdeps.
  destruct deps; simpl; try nothing_added.
  now rewrite (str_keys_names _ Hdeps), firstn_map.
Qed.

Lemma dependencies_names (repo_path : repo) :
  dependencies json_loads repo_path
  = if requirements_is_dir repo_path then Raise IsADirectoryError
    else Ok (map PStr (firstn 5 (python_names repo_path)
                       ++ firstn 5 (direct_dependencies json_loads repo_path))).
Proof.
  unfold dependencies, requirements_is_dir, python_names, direct_dependencies.
  destruct (child (repo_entries repo_path) "requirements.txt") as [[n c|n sub]|];
    cbn [read_text bind]; [| reflexivity |].
  - destruct (child (repo_entries repo_path) "package.json") as [pf|].
    + rewrite package_contribution, map_app. unfold extend.
      cbn [app]. now destruct pf.
    + unfold extend. cbn [app]. now rewrite firstn_nil, app_nil_r.
  - destruct (child (repo_entries repo_path) "package.json") as [pf|].
    + rewrite package_contribution. rewrite firstn_nil. cbn [app]. now destruct pf.
    + reflexivity.
Qed.


End DependencySummary.

Lemma sample_json_str_keys (content : string) (v : pyval) :
  sample_json content = Some v -> Py.str_keys v = true.
Proof.
  unfold sample_json.
  destruct (content =? "express-manifest");
    [intros E; injection E as <-; reflexivity|].
  destruct (content =? "openapi-document");
    [intros E; injection E as <-; reflexivity|].
  destruct (content =? "array-document");
    [intros E; injection E as <-; reflexivity|discriminate].
Qed.


(** ** The assembled context *)

Lemma section_block_truthy (parts : list string) (label data : string) :
  (if PyStr.truthy data then append parts (label ++ newline ++ data) else parts)
  = (parts ++ section_block label data)%list.
Proof.
  unfold PyStr.truthy, section_block, append.
  destruct (data =? ""); simpl; [now rewrite app_nil_r|reflexivity].
Qed.

Lemma context_parts_blocks (analysis : AnalysisRecord) :
  context_parts analysis = assembled_blocks analysis.
Proof.
  unfold context_parts, assembled_blocks.
  rewrite !section_block_truthy.
  assert (Hreadme : forall parts,
             match readme analysis with
             | Some content =>
                 if PyStr.truthy content
                 then append parts (readme_block content) else parts
             | None => parts
             end = (parts ++ readme_section (readme analysis))%list).
  { intros parts. unfold readme_section, PyStr.truthy, append.
    destruct (readme analysis) as [text|]; [|now rewrite app_nil_r].
    destruct (text =? ""); simpl; [now rewrite app_nil_r|reflexivity]. }
  rewrite Hreadme. simpl. now rewrite <- !app_assoc.
Qed.

(** C1, as the code has it: the context is the blocks of the five sections
    in the order structure, README, API specifications, code analysis,
    configuration, a block being present exactly when its data is not empty
    (a placeholder marker is data like any other), joined by a blank line. *)
Theorem prepare_llm_context_blocks (analysis : AnalysisRecord) :
  _prepare_llm_context analysis
  = PyStr.join (newline ++ newline) (assembled_blocks analysis)
  /\ context_parts analysis = assembled_blocks analysis
  /\ (forall label data,
         In (label ++ newline ++ data) (section_block label data) <-> data <> "").
Proof.
  split; [|split].
  - unfold _prepare_llm_context. now rewrite context_parts_blocks.
  - apply context_parts_blocks.
  - intros label data. unfold section_block.
    destruct (String.eqb_spec data "") as [->|Hne]; simpl; [tauto|].
    split; [intros _; exact Hne|intros _; now left].
Qed.

(** C1, as it is stated, fails: for a repository without API specifications
    or configuration files both sections hold their placeholder marker, and
    both are emitted. *)
Lemma placeholder_sections_are_emitted :
  (forall fold_case,
      _analyze_repository (fun _ => None) (fun _ => None) (fun _ => "") fold_case
                          empty_repo
      = Ok analysis_of_empty_repo)
  /\ _prepare_llm_context analysis_of_empty_repo
     = "**Project Structure:**" ++ newline ++ "svc" ++ newline ++ newline
       ++ "**API Specifications:**" ++ newline ++ "No API specifications found"
       ++ newline ++ newline
       ++ "**Configuration:**" ++ newline ++ "No configuration files found"
  /\ ~ (forall analysis label data,
           In (label ++ newline ++ data) (context_parts analysis) ->
           data = api_specs_text analysis \/ data = config_files analysis ->
           is_placeholder data = false).
Proof.
  split; [intros []; reflexivity|]. split; [reflexivity|].
  intros H.
  specialize (H analysis_of_empty_repo "**Configuration:**"
                "No configuration files found").
  discriminate H; [right; right; left; reflexivity|right; reflexivity].
Qed.

(** ** The README excerpt *)

Lemma string_length_append (s t : string) :
  String.length (s ++ t) = String.length s + String.length t.
Proof. induction s as [|c s IH]; simpl; [reflexivity|now rewrite IH]. Qed.

Lemma slice_to_length (n : nat) (s : string) :
  String.length (PyStr.slice_to n s) = Nat.min n (String.length s).
Proof.
  unfold PyStr.slice_to. revert s.
  induction n as [|n IH]; intros [|c s]; simpl; try reflexivity.
  now rewrite IH.
Qed.

Lemma slice_to_all (n : nat) (s : string) :
  String.length s <= n -> PyStr.slice_to n s = s.
Proof.
  unfold PyStr.slice_to. revert s.
  induction n as [|n IH]; intros [|c s]; simpl; intros H;
    try reflexivity; try lia.
  rewrite IH; [reflexivity|lia].
Qed.

Lemma slice_to_prefix (n : nat) (s : string) :
  s = PyStr.slice_to n s ++ String.substring n (String.length s - n) s.
Proof.
  unfold PyStr.slice_to. revert s.
  induction n as [|n IH]; intros [|c s]; simpl; try reflexivity.
  - f_equal. clear. induction s as [|c s IH]; simpl; [reflexivity|now f_equal].
  - f_equal. apply IH.
Qed.

Lemma readme_block_emitted (analysis : AnalysisRecord) (content : string) :
  readme analysis = Some content -> content <> "" ->
  context_parts analysis
  = (section_block "**Project Structure:**" (structure analysis)
     ++ readme_block content
     :: section_block "**API Specifications:**" (api_specs_text analysis)
     ++ section_block "**Code Analysis:**" (code_analysis analysis)
     ++ section_block "**Configuration:**" (config_files analysis))%list.
Proof.
  intros Hr Hne. rewrite context_parts_blocks. unfold assembled_blocks, readme_section.
  rewrite Hr. apply String.eqb_neq in Hne. now rewrite Hne.
Qed.

(** C3: for a README of 5000 characters the README block is the label, the
    first 2000 characters of the content and the three characters "...";
    the ellipsis follows the excerpt whatever the length of the content,
    which [find_readme] hands over whole. *)
Theorem readme_block_truncated (analysis : AnalysisRecord) (content : string) :
  readme analysis = Some content ->
  String.length content = 5000 ->
  In (readme_block content) (context_parts analysis)
  /\ readme_block content
     = "**Existing README:**" ++ newline ++ String.substring 0 2000 content ++ "..."
  /\ String.length (String.substring 0 2000 content) = 2000
  /\ content = String.substring 0 2000 content ++ String.substring 2000 3000 content
  /\ String.length (String.substring 0 2000 content ++ "...") = 2003
  /\ (forall other : string,
         String.length (PyStr.slice_to 2000 other)
         = Nat.min 2000 (String.length other)
         /\ (String.length other <= 2000 ->
             readme_block other = "**Existing README:**" ++ newline ++ other ++ "..."))
  /\ (forall repo_path file_name text,
         child (repo_entries repo_path) "README.md" = Some (File file_name text) ->
         find_readme repo_path = Some text).
Proof.
  intros Hr Hlen.
  assert (Hne : content <> "") by (intros ->; discriminate Hlen).
  pose proof (slice_to_length 2000 content) as Hs.
  rewrite Hlen in Hs. change (Nat.min 2000 5000) with 2000 in Hs.
  unfold PyStr.slice_to in Hs.
  split; [|split; [|split; [|split; [|split; [|split]]]]].
  - rewrite (readme_block_emitted _ _ Hr Hne). apply in_or_app. right. now left.
  - reflexivity.
  - exact Hs.
  - pose proof (slice_to_prefix 2000 content) as Hp. rewrite Hlen in Hp.
    exact Hp.
  - rewrite string_length_append, Hs. reflexivity.
  - intros other. split; [apply slice_to_length|].
    intros Hshort. unfold readme_block. now rewrite slice_to_all.
  - intros repo_path file_name text Hchild.
    unfold find_readme. simpl. now rewrite Hchild.
Qed.

Lemma readme_block_truncated_witness :
  In (readme_block long_readme) (context_parts analysis_with_long_readme)
  /\ String.length (String.substring 0 2000 long_readme ++ "...") = 2003.
Proof.
  assert (Hlen : String.length long_readme = 5000) by (vm_compute; reflexivity).
  pose proof (readme_block_truncated analysis_with_long_readme long_readme
                eq_refl Hlen) as (Hin & _ & _ & _ & H3 & _).
  split; [exact Hin|exact H3].
Defined.

(** ** The tree renderer *)

Lemma string_compare_refl (s : string) : String.compare s s = Eq.
Proof.
  induction s as [|c s IH]; simpl; [reflexivity|].
  unfold Ascii.compare. now rewrite N.compare_refl.
Qed.

Lemma string_leb_refl (s : string) : (s <=? s) = true.
Proof. unfold String.leb. now rewrite string_compare_refl. Qed.

Lemma string_compare_le_trans (a b c : string) :
  String.compare a b <> Gt -> String.compare b c <> Gt -> String.compare a c <> Gt.
Proof.
  revert b c. induction a as [|x a IH]; intros [|y b] [|z c]; simpl;
    try congruence.
  unfold Ascii.compare.
  destruct (N.compare_spec (N_of_ascii x) (N_of_ascii y)) as [Exy|Lxy|Gxy];
    destruct (N.compare_spec (N_of_ascii y) (N_of_ascii z)) as [Eyz|Lyz|Gyz];
    destruct (N.compare_spec (N_of_ascii x) (N_of_ascii z)) as [Exz|Lxz|Gxz];
    try congruence; try lia.
  apply IH.
Qed.

Lemma string_leb_trans (a b c : string) :
  (a <=? b) = true -> (b <=? c) = true -> (a <=? c) = true.
Proof.
  unfold String.leb. intros Hab Hbc.
  pose proof (string_compare_le_trans a b c) as H.
  destruct (String.compare a b), (String.compare b c), (String.compare a c);
    try reflexivity; try discriminate; exfalso; apply H; congruence.
Qed.

Lemma insert_by_name_perm (x : node) (l : list node) :
  Permutation (insert_by_name x l) (x :: l).
Proof.
  induction l as [|y l IH]; simpl; [reflexivity|].
  destruct (name x <=? name y); [reflexivity|].
  rewrite IH. apply perm_swap.
Qed.

Lemma sorted_perm (l : list node) : Permutation (sorted l) l.
Proof.
  induction l as [|x l IH]; simpl; [reflexivity|].
  rewrite insert_by_name_perm. now constructor.
Qed.

Lemma insert_by_name_sorted (x : node) (l : list node) :
  StronglySorted name_le l -> StronglySorted name_le (insert_by_name x l).
Proof.
  induction l as [|y l IH]; simpl; intros Hs.
  - constructor; constructor.
  - inversion Hs as [|? ? Hl Hy]; subst.
    destruct (name x <=? name y) eqn:E.
    + constructor; [exact Hs|]. constructor; [exact E|].
      eapply Forall_impl; [|exact Hy]. intros z Hz.
      exact (string_leb_trans _ _ _ E Hz).
    + constructor; [now apply IH|].
      apply (Permutation_Forall (Permutation_sym (insert_by_name_perm x l))).
      constructor; [|exact Hy].
      destruct (String.leb_total (name x) (name y)) as [H|H]; [congruence|exact H].
Qed.

Lemma sorted_strongly (l : list node) : StronglySorted name_le (sorted l).
Proof.
  induction l as [|x l IH]; simpl; [constructor|now apply insert_by_name_sorted].
Qed.

Lemma strongly_sorted_last (l : list node) (d x : node) :
  StronglySorted name_le l -> In x l -> name_le x (last l d).
Proof.
  induction l as [|y l IH]; intros Hs Hin; [destruct Hin|].
  inversion Hs as [|? ? Hl Hy]; subst.
  destruct l as [|z l].
  - destruct Hin as [<-|[]]. apply string_leb_refl.
  - change (last (y :: z :: l) d) with (last (z :: l) d).
    destruct Hin as [<-|Hin]; [|now apply IH].
    rewrite Forall_forall in Hy. apply Hy.
    destruct (@exists_last _ (z :: l)) as (l' & a & E); [discriminate|].
    rewrite E, last_last. apply in_or_app. right. now left.
Qed.

(** Enough fuel: the renderer needs [max_depth - depth + 1] nested calls and
    gives the same lines with any larger budget. *)
Lemma add_directory_fuel (fuel : nat) (max_depth : Z) (entries : list node)
      (prefix : string) (depth : Z) :
  (Z.to_nat (max_depth - depth) < fuel)%nat ->
  add_directory fuel max_depth entries prefix depth
  = add_directory (S (Z.to_nat (max_depth - depth))) max_depth entries prefix depth.
Proof.
  revert entries prefix depth.
  induction fuel as [|fuel IH]; intros entries prefix depth Hfuel; [lia|].
  cbn [add_directory].
  destruct (depth >? max_depth)%Z eqn:Hgt; [reflexivity|].
  apply flat_map_ext. intros [i item]. f_equal.
  destruct item as [n c|n sub]; [reflexivity|].
  destruct (depth <? max_depth)%Z eqn:Hlt; [|reflexivity].
  apply Z.ltb_lt in Hlt.
  rewrite IH by lia.
  replace (Z.to_nat (max_depth - depth))
    with (S (Z.to_nat (max_depth - (depth + 1)))) by lia.
  reflexivity.
Qed.

Lemma level_lines_cons (x y : node) (l : list node) :
  level_lines (x :: y :: l) = (mid_connector ++ name x) :: level_lines (y :: l).
Proof. reflexivity. Qed.

Lemma level_enumerate (items : list node) (k n : nat) :
  items <> [] -> n = k + List.length items ->
  map (fun ix : nat * node =>
         (if (fst ix =? n - 1)%nat then last_connector else mid_connector)
           ++ name (snd ix))
      (combine (seq k (List.length items)) items)
  = level_lines items.
Proof.
  revert k. induction items as [|x l IH]; intros k Hne Hn; [congruence|].
  destruct l as [|y l].
  - cbn [List.length seq combine map fst snd]. simpl in Hn.
    replace (n - 1) with k by lia. now rewrite Nat.eqb_refl.
  - rewrite level_lines_cons.
    change (List.length (x :: y :: l)) with (S (List.length (y :: l))) in *.
    cbn [seq combine map fst snd].
    replace (k =? n - 1)%nat with false
      by (symmetry; apply Nat.eqb_neq; simpl in Hn; lia).
    f_equal. apply IH; [discriminate|lia].
Qed.

Lemma flat_map_singleton {A B : Type} (f : A -> list B) (g : A -> B) (l : list A) :
  (forall x, f x = [g x]) -> flat_map f l = map g l.
Proof.
  intros H. induction l as [|x l IH]; simpl; [reflexivity|].
  now rewrite H, IH.
Qed.

Lemma add_directory_depth_zero (entries : list node) :
  filter listed entries <> [] ->
  add_directory 1 0 entries "" 0 = level_lines (sorted (filter listed entries)).
Proof.
  intros Hne. cbn [add_directory]. change (0 >? 0)%Z with false. cbv iota.
  set (items := sorted (filter listed entries)).
  assert (Hitems : items <> []).
  { intros E. apply Hne. apply Permutation_nil.
    rewrite <- E. apply sorted_perm. }
  rewrite <- (level_enumerate items 0 (List.length items) Hitems eq_refl).
  apply flat_map_singleton. intros [i item].
  change (0 <? 0)%Z with false. now destruct item.
Qed.

Lemma uses_last_connector_mid (s : string) :
  uses_last_connector (mid_connector ++ s) = false.
Proof. reflexivity. Qed.

Lemma uses_last_connector_last (s : string) :
  uses_last_connector (last_connector ++ s) = true.
Proof. now destruct s. Qed.

Lemma level_lines_one_last (items : list node) :
  filter uses_last_connector (level_lines items)
  = [last_connector ++ name (last items (File "" ""))].
Proof.
  unfold level_lines, append. rewrite filter_app.
  replace (filter uses_last_connector
             (map (fun item => mid_connector ++ name item) (removelast items)))
    with (@nil string).
  - cbn [app filter]. now rewrite uses_last_connector_last.
  - induction (removelast items) as [|x l IH]; [reflexivity|].
    cbn [map filter]. now rewrite uses_last_connector_mid.
Qed.

Lemma level_lines_length (items : list node) :
  items <> [] -> List.length (level_lines items) = List.length items.
Proof.
  intros Hne. unfold level_lines, append.
  rewrite length_app, length_map. simpl.
  rewrite (app_removelast_last (File "" "") Hne) at 2.
  now rewrite length_app.
Qed.

Lemma add_directory_no_items (entries : list node) :
  filter listed entries = [] -> add_directory 1 0 entries "" 0 = [].
Proof.
  intros H. cbn [add_directory]. change (0 >? 0)%Z with false. cbv iota.
  now rewrite H.
Qed.

(** C7, as the code has it: with [max_depth = 0] the output is the name of
    the root and one line per listed entry of the root, in ascending order of
    names and without descending.  When the root has no listed entry the
    output is its name alone and no line uses the last-sibling connector;
    when it has one, the connector is used on exactly one line, the final
    one, whose item has the greatest name. *)
Theorem structure_depth_zero (repo_path : repo) :
  let items := listed_items repo_path in
  (filter listed (repo_entries repo_path) = [] ->
   structure_lines repo_path 0 = [repo_name repo_path]
   /\ get_project_structure repo_path 0 = repo_name repo_path
   /\ filter uses_last_connector (tl (structure_lines repo_path 0)) = [])
  /\ (filter listed (repo_entries repo_path) <> [] ->
      structure_lines repo_path 0 = repo_name repo_path :: level_lines items
      /\ get_project_structure repo_path 0
         = PyStr.join newline (repo_name repo_path :: level_lines items)
      /\ Permutation items (filter listed (repo_entries repo_path))
      /\ StronglySorted name_le items
      /\ (forall x, In x (filter listed (repo_entries repo_path)) ->
                    name_le x (last items (File "" "")))
      /\ List.length (level_lines items)
         = List.length (filter listed (repo_entries repo_path))
      /\ filter uses_last_connector (tl (structure_lines repo_path 0))
         = [last_connector ++ name (last items (File "" ""))]
      /\ last (structure_lines repo_path 0) ""
         = last_connector ++ name (last items (File "" ""))).
Proof.
  intros items. split.
  - intros Hnone.
    assert (Hlines : structure_lines repo_path 0 = [repo_name repo_path]).
    { unfold structure_lines. change (S (Z.to_nat 0)) with 1.
      now rewrite add_directory_no_items. }
    split; [exact Hlines|]. split.
    + unfold get_project_structure. now rewrite Hlines.
    + now rewrite Hlines.
  - intros Hne.
    assert (Hperm : Permutation items (filter listed (repo_entries repo_path)))
      by apply sorted_perm.
    assert (Hitems : items <> []).
    { intros E. apply Hne. apply Permutation_nil. now rewrite <- E. }
    assert (Hlines : structure_lines repo_path 0
                     = repo_name repo_path :: level_lines items).
    { unfold structure_lines. change (S (Z.to_nat 0)) with 1.
      now rewrite add_directory_depth_zero. }
    split; [exact Hlines|]. split.
    { unfold get_project_structure. now rewrite Hlines. }
    split; [exact Hperm|]. split; [apply sorted_strongly|]. split.
    { intros x Hx. apply strongly_sorted_last; [apply sorted_strongly|].
      apply (Permutation_in x (Permutation_sym Hperm) Hx). }
    split.
    { rewrite level_lines_length by exact Hitems. now apply Permutation_length. }
    rewrite Hlines. split; [apply level_lines_one_last|].
    unfold level_lines, append.
    change (repo_name repo_path :: ?l ++ [?x])%list
      with ((repo_name repo_path :: l) ++ [x])%list.
    apply last_last.
Qed.

Lemma structure_depth_zero_witness :
  structure_lines repo_with_tree 0
  = ["svc"; mid_connector ++ "README.md"; mid_connector ++ "setup.py";
     last_connector ++ "src"]
  /\ structure_lines repo_with_hidden_entries_only 0 = ["svc"].
Proof.
  split.
  - assert (Hne : filter listed (repo_entries repo_with_tree) <> [])
      by (simpl; discriminate).
    exact (proj1 (proj2 (structure_depth_zero repo_with_tree) Hne)).
  - exact (proj1 (proj1 (structure_depth_zero repo_with_hidden_entries_only)
                        eq_refl)).
Defined.

(** C7, as it is stated, fails for a root without a listed entry: the output
    is the name of the root alone and the last-sibling connector is used on
    no line. *)
Lemma structure_depth_zero_without_items :
  filter listed (repo_entries repo_with_hidden_entries_only) = []
  /\ structure_lines repo_with_hidden_entries_only 0 = ["svc"]
  /\ get_project_structure repo_with_hidden_entries_only 0 = "svc"
  /\ ~ (forall repo_path,
           List.length (filter uses_last_connector
                               (tl (structure_lines repo_path 0))) = 1).
Proof.
  split; [reflexivity|]. split; [reflexivity|]. split; [reflexivity|].
  intros H. specialize (H repo_with_hidden_entries_only). discriminate H.
Qed.

(** ** API specifications: the structured extraction *)

Lemma contains_dict (k : string) (d : list (pyval * pyval)) :
  Py.contains k (PDict d) = Ok (has_key k d).
Proof.
  unfold Py.contains, has_key, Py.lookup. f_equal.
  induction d as [|kv d IH]; simpl; [reflexivity|].
  destruct (Py.is_key k (fst kv)); [reflexivity|exact IH].
Qed.

(** ** Globbing for a keyword *)

Lemma prefix_empty (s : string) : String.prefix "" s = true.
Proof. now destruct s. Qed.

Lemma glob_match_star (s : string) : glob_match "*" s = true.
Proof.
  induction s as [|c s IH]; [reflexivity|].
  change (glob_match "*" (String c s))
    with (glob_match "" (String c s) || glob_match "*" s).
  now rewrite IH, orb_true_r.
Qed.

Lemma glob_match_literal_star (kw s : string) :
  no_star kw = true -> glob_match (kw ++ "*") s = String.prefix kw s.
Proof.
  revert s. induction kw as [|c kw IH]; intros s Hkw.
  - rewrite prefix_empty. apply glob_match_star.
  - simpl in Hkw. apply andb_true_iff in Hkw as [Hc Hkw].
    apply negb_true_iff in Hc.
    change (glob_match (String c kw ++ "*") s)
      with ((if Ascii.eqb c "*" then glob_match (String "*" (kw ++ "*"))
             else fun s => match s with
                           | EmptyString => false
                           | String d s' => Ascii.eqb c d && glob_match (kw ++ "*") s'
                           end) s).
    rewrite Hc. destruct s as [|d s]; [reflexivity|]. simpl.
    rewrite IH by exact Hkw.
    destruct (ascii_dec c d) as [->|Hne].
    + now rewrite Ascii.eqb_refl.
    + apply Ascii.eqb_neq in Hne. now rewrite Hne.
Qed.

Lemma glob_match_keyword (kw s : string) :
  no_star kw = true ->
  glob_match (String "*" (kw ++ "*")) s = PyStr.contains kw s.
Proof.
  intros Hkw. induction s as [|c s IH].
  - change (glob_match (String "*" (kw ++ "*")) "")
      with (glob_match (kw ++ "*") "" || false).
    rewrite glob_match_literal_star by exact Hkw. reflexivity.
  - change (glob_match (String "*" (kw ++ "*")) (String c s))
      with (glob_match (kw ++ "*") (String c s)
            || glob_match (String "*" (kw ++ "*")) s).
    rewrite glob_match_literal_star, IH by exact Hkw. reflexivity.
Qed.

Lemma fold_left_flat_map {A B : Type} (step : list B -> A -> list B)
      (g : A -> list B) (l : list A) (acc : list B) :
  (forall acc x, step acc x = (acc ++ g x)%list) ->
  fold_left step l acc = (acc ++ flat_map g l)%list.
Proof.
  intros H. revert acc. induction l as [|x l IH]; intros acc; simpl.
  - now rewrite app_nil_r.
  - now rewrite IH, H, <- app_assoc.
Qed.

Lemma flat_map_filter {A B : Type} (p : A -> bool) (g : A -> list B) (l : list A) :
  flat_map g (filter p l) = flat_map (fun x => if p x then g x else []) l.
Proof.
  induction l as [|x l IH]; simpl; [reflexivity|].
  destruct (p x); simpl; now rewrite IH.
Qed.

Lemma filter_twice {A : Type} (p q : A -> bool) (l : list A) :
  filter p (filter q l) = filter (fun x => p x && q x) l.
Proof.
  induction l as [|x l IH]; simpl; [reflexivity|].
  destruct (q x); simpl; rewrite IH.
  - now rewrite andb_true_r.
  - now rewrite andb_false_r.
Qed.

Section Extraction.

Variable json_loads : string -> option pyval.
Variable yaml_safe_load : string -> option pyval.
Variable py_repr : pyval -> string.
Variable fold_case : bool.

#[local] Abbreviation extract := (_extract_api_info json_loads yaml_safe_load py_repr).
#[local] Abbreviation body := (api_info_body json_loads yaml_safe_load py_repr).
#[local] Abbreviation step := (openapi_step json_loads yaml_safe_load py_repr).
#[local] Abbreviation extras := (extraction_lines json_loads yaml_safe_load py_repr).

Lemma openapi_step_lines (specs : list string) (spec_file : node) :
  step specs spec_file
  = if is_spec_suffix spec_file
    then (specs ++ openapi_header spec_file :: extras spec_file)%list
    else specs.
Proof.
  unfold openapi_step, extraction_lines, PyStr.truthy, append.
  destruct (is_spec_suffix spec_file); [|reflexivity].
  destruct (extract spec_file) as [content|]; [|reflexivity].
  destruct (content =? ""); simpl; [reflexivity|].
  now rewrite <- app_assoc.
Qed.

Lemma body_after_parse (spec_file : node) (content : string) :
  read_text spec_file = Ok content ->
  body spec_file
  = (spec_data <- parse (loader json_loads yaml_safe_load spec_file) content ;;
     has_info <- Py.contains "info" spec_data ;;
     info <-
       (if has_info : bool then
          info_map <- Py.getitem spec_data "info" ;;
          title <- Py.get info_map "title" (PStr "Unknown") ;;
          version <- Py.get info_map "version" (PStr "Unknown") ;;
          Ok ["  Title: " ++ format py_repr title
              ++ ", Version: " ++ format py_repr version]
        else Ok []) ;;
     has_paths <- Py.contains "paths" spec_data ;;
     info <-
       (if has_paths : bool then
          paths <- Py.getitem spec_data "paths" ;;
          endpoint_count <- Py.len paths ;;
          let info := append info ("  Endpoints: " ++ PyStr.of_nat endpoint_count) in
          all_paths <- Py.keys paths ;;
          match firstn 3 all_paths with
          | [] => Ok info
          | endpoints =>
              joined <- Py.join ", " endpoints ;;
              Ok (append info ("  Sample endpoints: " ++ joined))
          end
        else Ok info) ;;
     Ok (Some (PyStr.join newline info))).
Proof.
  intros Hread. unfold api_info_body, loader. rewrite Hread. cbn [bind].
  now destruct (suffix spec_file =? ".json").
Qed.

Lemma extraction_parse_failure (spec_file : node) :
  (forall content, read_text spec_file = Ok content ->
                   loader json_loads yaml_safe_load spec_file content = None) ->
  exists e, body spec_file = Raise e.
Proof.
  intros H. destruct (read_text spec_file) as [content|e] eqn:Hread.
  - rewrite (body_after_parse _ _ Hread). unfold parse.
    rewrite (H content eq_refl). now exists DecodeError.
  - unfold api_info_body. rewrite Hread. now exists e.
Qed.

Lemma extraction_without_shape (spec_file : node) (content : string) (v : pyval) :
  read_text spec_file = Ok content ->
  loader json_loads yaml_safe_load spec_file content = Some v ->
  expected_shape v = false ->
  extras spec_file = [].
Proof.
  intros Hread Hload Hshape.
  unfold extraction_lines, _extract_api_info.
  rewrite (body_after_parse _ _ Hread). unfold parse. rewrite Hload. cbn [bind].
  destruct v as [| | | |s|l|d]; try reflexivity.
  - cbn [Py.contains bind].
    destruct (PyStr.contains "info" s); [reflexivity|].
    destruct (PyStr.contains "paths" s); reflexivity.
  - cbn [Py.contains bind].
    destruct (existsb (Py.is_key "info") l); [reflexivity|].
    destruct (existsb (Py.is_key "paths") l); reflexivity.
  - rewrite !contains_dict. cbn [bind Py.getitem].
    unfold expected_shape, has_key in *.
    destruct (Py.lookup "info" d) as [i|]; destruct (Py.lookup "paths" d) as [p|];
      cbn [bind] in *.
    + destruct i; try reflexivity. cbn [Py.get].
      destruct p as [| | | | | |p]; try (now destruct (Py.lookup "title" d0), (Py.lookup "version" d0)).
      cbn [andb orb] in Hshape.
      destruct (Py.lookup "title" d0), (Py.lookup "version" d0); cbn [bind Py.len Py.keys];
        unfold Py.join;
        destruct (firstn 3 (map fst p)) as [|k ks]; try discriminate;
        destruct (Py.strings (k :: ks)); try discriminate; reflexivity.
    + destruct i; try reflexivity. discriminate.
    + destruct p as [| | | | | |p]; try reflexivity.
      cbn [andb orb] in Hshape. cbn [bind Py.len Py.keys]. unfold Py.join.
      destruct (firstn 3 (map fst p)) as [|k ks]; try discriminate.
      destruct (Py.strings (k :: ks)); try discriminate; reflexivity.
    + reflexivity.
Qed.

Lemma join_first_nonempty (sep x : string) (rest : list string) :
  x <> "" -> PyStr.join sep (x :: rest) <> "".
Proof.
  intros Hx. unfold PyStr.join. simpl.
  destruct rest; [exact Hx|].
  destruct x; [congruence|discriminate].
Qed.

Lemma extraction_with_shape (spec_file : node) (content : string) (v : pyval) :
  read_text spec_file = Ok content ->
  loader json_loads yaml_safe_load spec_file content = Some v ->
  expected_shape v = true ->
  exists text, text <> "" /\ extras spec_file = [text].
Proof.
  intros Hread Hload Hshape.
  unfold extraction_lines, _extract_api_info.
  rewrite (body_after_parse _ _ Hread). unfold parse. rewrite Hload. cbn [bind].
  destruct v as [| | | |s|l|d]; try discriminate.
  rewrite !contains_dict. cbn [bind Py.getitem].
  unfold expected_shape, has_key in *.
  assert (Hout : forall info : list string,
             info <> [] -> (forall x, In x info -> x <> "") ->
             exists text, text <> ""
               /\ match try_except (Ok (Some (PyStr.join newline info))) None with
                  | Some c => if c =? "" then [] else [c]
                  | None => []
                  end = [text]).
  { intros info Hne Hall. exists (PyStr.join newline info). cbn [try_except].
    assert (Hj : PyStr.join newline info <> "").
    { destruct info as [|x rest]; [congruence|].
      apply join_first_nonempty, Hall. now left. }
    split; [exact Hj|]. apply String.eqb_neq in Hj. now rewrite Hj. }
  destruct (Py.lookup "info" d) as [i|]; destruct (Py.lookup "paths" d) as [p|];
    cbn [bind andb orb] in *; try discriminate.
  - destruct i as [| | | | | |i]; try discriminate.
    destruct p as [| | | | | |p]; try discriminate.
    cbn [Py.get Py.len Py.keys bind]. unfold Py.join.
    destruct (Py.lookup "title" i), (Py.lookup "version" i); cbn [bind];
      destruct (firstn 3 (map fst p)) as [|k ks]; cbn [bind];
      try (destruct (Py.strings (k :: ks)); [|discriminate]; cbn [bind]);
      apply Hout; try discriminate;
      unfold append; simpl; intros x Hx; intuition (subst; discriminate).
  - destruct i as [| | | | | |i]; try discriminate.
    cbn [Py.get bind].
    destruct (Py.lookup "title" i), (Py.lookup "version" i); cbn [bind];
      apply Hout; try discriminate;
      simpl; intros x Hx; intuition (subst; discriminate).
  - destruct p as [| | | | | |p]; try discriminate.
    cbn [Py.len Py.keys bind]. unfold Py.join.
    destruct (firstn 3 (map fst p)) as [|k ks]; cbn [bind];
      try (destruct (Py.strings (k :: ks)); [|discriminate]; cbn [bind]);
      apply Hout; try discriminate;
      unfold append; simpl; intros x Hx; intuition (subst; discriminate).
Qed.

Lemma openapi_specs_lines (repo_path : repo) :
  openapi_specs json_loads yaml_safe_load py_repr fold_case repo_path
  = flat_map (fun f => openapi_header f :: extras f)
             (filter is_spec_suffix (openapi_files fold_case repo_path)).
Proof.
  unfold openapi_specs.
  rewrite (fold_left_flat_map _
             (fun f => if is_spec_suffix f
                       then openapi_header f :: extras f else [])).
  - now rewrite flat_map_filter.
  - intros acc f. rewrite openapi_step_lines.
    destruct (is_spec_suffix f); [reflexivity|now rewrite app_nil_r].
Qed.

Lemma later_passes_keep (repo_path : repo) :
  exists later,
    api_specs json_loads yaml_safe_load py_repr fold_case repo_path
    = (openapi_specs json_loads yaml_safe_load py_repr fold_case repo_path
       ++ later)%list.
Proof.
  unfold api_specs.
  set (first := openapi_specs json_loads yaml_safe_load py_repr fold_case repo_path).
  rewrite (fold_left_flat_map graphql_step
             (fun f => if mem (suffix f) [".graphql"; ".gql"]
                       then ["GraphQL Schema: " ++ name f] else [])).
  - rewrite (fold_left_flat_map (api_docs_step fold_case)
               (fun f => match f with
                         | Dir _ entries =>
                             match rglob fold_case entries "*.md" with
                             | [] => []
                             | _ => ["API Documentation: " ++ name f ++ "/"]
                             end
                         | File _ _ => []
                         end)).
    + rewrite <- app_assoc. eauto.
    + intros acc [n c|n sub]; simpl; [now rewrite app_nil_r|].
      destruct (rglob fold_case sub "*.md"); [now rewrite app_nil_r|reflexivity].
  - intros acc f. unfold graphql_step.
    destruct (mem (suffix f) [".graphql"; ".gql"]); [reflexivity|now rewrite app_nil_r].
Qed.

(** C5: for a file the first pass selects, the header line is always
    emitted; when reading or parsing it fails, or the parsed document lacks
    the expected shape, the extraction adds nothing below the header.  Every
    exception raised in the body of the extraction ends there: the file still
    has its header in the report of [find_api_specs]. *)
Theorem extraction_failure_keeps_header (repo_path : repo) (spec_file : node)
        (specs : list string) :
  is_spec_suffix spec_file = true ->
  (exists extra, step specs spec_file
                 = (specs ++ openapi_header spec_file :: extra)%list)
  /\ (forall e, body spec_file = Raise e ->
                extract spec_file = None
                /\ step specs spec_file = append specs (openapi_header spec_file))
  /\ ((forall content, read_text spec_file = Ok content ->
                       loader json_loads yaml_safe_load spec_file content = None) ->
      step specs spec_file = append specs (openapi_header spec_file))
  /\ (forall content v,
         read_text spec_file = Ok content ->
         loader json_loads yaml_safe_load spec_file content = Some v ->
         expected_shape v = false ->
         step specs spec_file = append specs (openapi_header spec_file))
  /\ (In spec_file (openapi_files fold_case repo_path) ->
      In (openapi_header spec_file)
         (api_specs json_loads yaml_safe_load py_repr fold_case repo_path)
      /\ find_api_specs json_loads yaml_safe_load py_repr fold_case repo_path
         = PyStr.join newline
             (api_specs json_loads yaml_safe_load py_repr fold_case repo_path)).
Proof.
  intros Hsfx.
  assert (Hraise : forall e, body spec_file = Raise e ->
             extract spec_file = None
             /\ step specs spec_file = append specs (openapi_header spec_file)).
  { intros e He. assert (Hnone : extract spec_file = None)
      by (unfold _extract_api_info; now rewrite He).
    split; [exact Hnone|].
    rewrite openapi_step_lines, Hsfx. unfold extraction_lines. now rewrite Hnone. }
  split; [|split; [|split; [|split]]].
  - rewrite openapi_step_lines, Hsfx. eauto.
  - exact Hraise.
  - intros Hfail. destruct (extraction_parse_failure _ Hfail) as [e He].
    exact (proj2 (Hraise e He)).
  - intros content v Hread Hload Hshape.
    rewrite openapi_step_lines, Hsfx.
    now rewrite (extraction_without_shape _ _ _ Hread Hload Hshape).
  - intros Hin.
    assert (Hhead : In (openapi_header spec_file)
                       (api_specs json_loads yaml_safe_load py_repr fold_case
                                  repo_path)).
    { destruct (later_passes_keep repo_path) as [later ->].
      apply in_or_app. left. rewrite openapi_specs_lines.
      apply in_flat_map. exists spec_file. split; [|now left].
      apply filter_In. now split. }
    split; [exact Hhead|]. unfold find_api_specs.
    destruct (api_specs json_loads yaml_safe_load py_repr fold_case repo_path);
      [destruct Hhead|reflexivity].
Qed.

(** C4, as the code has it: the first pass runs over the matches of
    [*openapi*] followed by the matches of [*swagger*], the keyword being
    looked for in the name as the platform's glob compares it, and keeps those
    with one of the three extensions; each kept match gets a header line, so
    an entry whose name holds both keywords gets two. *)
Theorem openapi_pass_selection (repo_path : repo) :
  let everything := walk_entries (repo_entries repo_path) in
  let selected := filter is_spec_suffix (openapi_files fold_case repo_path) in
  selected
  = (filter (fun e => is_spec_suffix e
                      && PyStr.contains "openapi" (glob_name fold_case e)) everything
     ++ filter (fun e => is_spec_suffix e
                         && PyStr.contains "swagger" (glob_name fold_case e))
               everything)%list
  /\ (forall e, In e selected <->
                In e everything /\ is_spec_suffix e = true
                /\ (PyStr.contains "openapi" (glob_name fold_case e) = true
                    \/ PyStr.contains "swagger" (glob_name fold_case e) = true))
  /\ openapi_specs json_loads yaml_safe_load py_repr fold_case repo_path
     = flat_map (fun f => openapi_header f :: extras f) selected.
Proof.
  intros everything selected.
  assert (Hsel : selected
    = (filter (fun e => is_spec_suffix e
                        && PyStr.contains "openapi" (glob_name fold_case e)) everything
       ++ filter (fun e => is_spec_suffix e
                           && PyStr.contains "swagger" (glob_name fold_case e))
                 everything)%list).
  { unfold selected, openapi_files, rglob. rewrite filter_app, !filter_twice.
    fold everything. f_equal; apply filter_ext; intros e; unfold glob_name;
      change "*openapi*" with (String "*" ("openapi" ++ "*"));
      change "*swagger*" with (String "*" ("swagger" ++ "*"));
      now rewrite glob_match_keyword by reflexivity. }
  split; [exact Hsel|]. split; [|apply openapi_specs_lines].
  intros e. rewrite Hsel, in_app_iff, !filter_In, !andb_true_iff. tauto.
Qed.

End Extraction.

(** C4, as it is stated, fails: an entry whose name holds both keywords gets
    two header lines, and where the glob compares names exactly a keyword in
    another case is not found. *)
Lemma openapi_pass_counts_matches :
  map openapi_header (keyword_entries repo_with_specs)
  = [ "OpenAPI Spec: OpenAPI.yaml"; "OpenAPI Spec: openapi-swagger.json";
      "OpenAPI Spec: openapi.json" ]
  /\ openapi_specs sample_json sample_yaml (fun _ => "") false repo_with_specs
     = [ "OpenAPI Spec: openapi-swagger.json"; "OpenAPI Spec: openapi.json";
         "OpenAPI Spec: openapi-swagger.json" ]
  /\ openapi_specs sample_json sample_yaml (fun _ => "") true repo_with_specs
     = [ "OpenAPI Spec: OpenAPI.yaml"; "OpenAPI Spec: openapi-swagger.json";
         "OpenAPI Spec: openapi.json"; "OpenAPI Spec: openapi-swagger.json" ]
  /\ ~ (forall fold_case repo_path,
           openapi_specs (fun _ => None) (fun _ => None) (fun _ => "") fold_case
                         repo_path
           = map openapi_header (keyword_entries repo_path)).
Proof.
  split; [reflexivity|]. split; [reflexivity|]. split; [reflexivity|].
  intros H. specialize (H false repo_with_specs). discriminate H.
Qed.

Lemma extraction_failure_keeps_header_witness :
  openapi_step sample_json sample_yaml (fun _ => "") []
               (File "openapi.json" "array-document")
  = ["OpenAPI Spec: openapi.json"].
Proof.
  pose proof (extraction_failure_keeps_header
                sample_json sample_yaml (fun _ => "") false repo_with_specs
                (File "openapi.json" "array-document") [] eq_refl)
    as (_ & _ & _ & Hshape & _).
  exact (Hshape "array-document" (PList [PStr "info"; PInt 1])
                eq_refl eq_refl eq_refl).
Defined.

(** * Further properties of the analysis pipeline *)

(** ** The configuration scan, for every repository *)

Lemma fold_left_ext {A B : Type} (f g : A -> B -> A) (l : list B) (a : A) :
  (forall a b, In b l -> f a b = g a b) -> fold_left f l a = fold_left g l a.
Proof.
  revert a. induction l as [|b l IH]; intros a H; simpl; [reflexivity|].
  rewrite H by now left. apply IH. intros a' b' Hb. apply H. now right.
Qed.

Lemma split_char_lacks (c : ascii) (s : string) :
  lacks c s = true -> PyStr.split_char c s = [s].
Proof.
  induction s as [|a s IH]; intros H; [reflexivity|].
  cbn [lacks] in H. apply andb_true_iff in H as [Ha Hs].
  apply negb_true_iff in Ha. cbn [PyStr.split_char]. rewrite Ha.
  now rewrite (IH Hs).
Qed.



Section ConfigReport.

Variable json_loads : string -> option pyval.
Variable py_repr : pyval -> string.

Lemma config_step_block (entries : list node) (acc : list string) (pattern : string) :
  config_step json_loads py_repr entries acc pattern
  = (acc ++ config_block json_loads py_repr entries pattern)%list.
Proof.
  unfold config_block, config_step, append.
  destruct (child entries pattern) as [config_path|]; [|now rewrite app_nil_r].
  destruct (pattern =? "package.json").
  - destruct (_extract_package_json_info json_loads py_repr config_path) as [info|];
      [|reflexivity].
    destruct (PyStr.truthy info); [|reflexivity]. now rewrite <- app_assoc.
  - destruct (mem pattern ["requirements.txt"; "setup.py"]); [|reflexivity].
    destruct (_extract_python_info config_path) as [info|]; [|reflexivity].
    destruct (PyStr.truthy info); [|reflexivity]. now rewrite <- app_assoc.
Qed.

Lemma config_lines_blocks (repo_path : repo) :
  config_lines json_loads py_repr repo_path
  = flat_map (config_block json_loads py_repr (repo_entries repo_path)) config_patterns.
Proof.
  unfold config_lines.
  now rewrite (fold_left_flat_map _ _ _ _ (config_step_block (repo_entries repo_path))).
Qed.

Lemma config_block_shape (entries : list node) (pattern : string) :
  match child entries pattern with
  | None => config_block json_loads py_repr entries pattern = []
  | Some _ =>
      config_block json_loads py_repr entries pattern = ["- " ++ pattern]
      \/ exists info,
          config_block json_loads py_repr entries pattern
          = ["- " ++ pattern; "  " ++ info]
  end.
Proof.
  unfold config_block, config_step, append.
  destruct (child entries pattern) as [config_path|]; [|reflexivity].
  destruct (pattern =? "package.json").
  - destruct (_extract_package_json_info json_loads py_repr config_path) as [info|];
      [|now left].
    destruct (PyStr.truthy info); [right; now exists info|now left].
  - destruct (mem pattern ["requirements.txt"; "setup.py"]); [|now left].
    destruct (_extract_python_info config_path) as [info|]; [|now left].
    destruct (PyStr.truthy info); [right; now exists info|now left].
Qed.

Lemma config_first_line (entries : list node) (patterns : list string)
      (line : string) (rest : list string) :
  flat_map (config_block json_loads py_repr entries) patterns = line :: rest ->
  exists p, line = "- " ++ p /\ In p patterns /\ In p (map name entries).
Proof.
  induction patterns as [|p patterns IH]; intros Hl; [discriminate|].
  simpl in Hl. pose proof (config_block_shape entries p) as Hshape.
  destruct (child entries p) eqn:Hc.
  - assert (Hroot : In p (map name entries)).
    { apply exists_iff. unfold exists_. now rewrite Hc. }
    destruct Hshape as [H|[info H]]; rewrite H in Hl; injection Hl as <- _;
      exists p; repeat split; auto; now left.
  - rewrite Hshape in Hl. destruct (IH Hl) as (q & ? & ? & ?).
    exists q. repeat split; auto. now right.
Qed.

Lemma config_report_cases (repo_path : repo) :
  (flat_map (config_block json_loads py_repr (repo_entries repo_path))
            config_patterns = []
   /\ find_config_files json_loads py_repr repo_path = no_config_marker)
  \/ exists q rest,
       find_config_files json_loads py_repr repo_path
       = PyStr.join newline (("- " ++ q) :: rest)
       /\ In q config_patterns /\ In q (root_names repo_path).
Proof.
  unfold find_config_files. rewrite config_lines_blocks.
  destruct (flat_map _ config_patterns) as [|line rest] eqn:E.
  - left. now split.
  - right. destruct (config_first_line _ _ _ _ E) as (q & -> & Hq & Hroot).
    now exists q, rest.
Qed.

Lemma bullet_report_is_no_marker (q : string) (rest : list string) :
  PyStr.join newline (("- " ++ q) :: rest) <> no_config_marker.
Proof.
  intros Hm. unfold PyStr.join in Hm. simpl in Hm. destruct rest; discriminate Hm.
Qed.

Lemma no_block_no_name (repo_path : repo) (p : string) :
  flat_map (config_block json_loads py_repr (repo_entries repo_path))
           config_patterns = [] ->
  In p config_patterns -> ~ In p (root_names repo_path).
Proof.
  intros E Hp Hroot.
  pose proof (config_block_shape (repo_entries repo_path) p) as Hshape.
  apply exists_iff in Hroot. unfold exists_ in Hroot.
  destruct (child (repo_entries repo_path) p); [|discriminate].
  assert (Hin : In ("- " ++ p) (@nil string)); [|destruct Hin].
  rewrite <- E. apply in_flat_map. exists p. split; [exact Hp|].
  destruct Hshape as [H|[info H]]; rewrite H; now left.
Qed.

Lemma find_config_files_nonempty (repo_path : repo) :
  find_config_files json_loads py_repr repo_path <> "".
Proof.
  destruct (config_report_cases repo_path) as [[_ ->]|(q & rest & -> & _)].
  - discriminate.
  - apply join_first_nonempty. discriminate.
Qed.

(** X1: the configuration report is never the empty string, and it is the
    placeholder marker exactly when none of the known names exists at the
    root. *)
Theorem find_config_files_marker_iff (repo_path : repo) :
  find_config_files json_loads py_repr repo_path <> ""
  /\ (find_config_files json_loads py_repr repo_path = no_config_marker
      <-> forall p, In p config_patterns -> ~ In p (root_names repo_path)).
Proof.
  split; [apply find_config_files_nonempty|].
  destruct (config_report_cases repo_path) as [[E Hm]|(q & rest & Hq & Hpat & Hroot)].
  - split; [|intros _; exact Hm].
    intros _ p. now apply no_block_no_name.
  - rewrite Hq. split.
    + intros Hm. now apply bullet_report_is_no_marker in Hm.
    + intros Hnone. now destruct (Hnone q Hpat Hroot).
Qed.




End ConfigReport.


(** ** Probing the root does not depend on the listing order *)

Lemma child_in (entries : list node) (file_name : string) (n : node) :
  child entries file_name = Some n -> In n entries /\ name n = file_name.
Proof.
  unfold child. intros H. apply find_some in H as [Hin Hn].
  split; [exact Hin|now apply String.eqb_eq].
Qed.

Lemma child_unique (entries : list node) (n : node) :
  NoDup (map name entries) -> In n entries -> child entries (name n) = Some n.
Proof.
  unfold child. induction entries as [|e es IH]; intros Hnd Hin; [destruct Hin|].
  simpl in *. inversion Hnd as [|? ? Hfresh Hnd']; subst.
  destruct Hin as [->|Hin].
  - now rewrite String.eqb_refl.
  - destruct (String.eqb_spec (name e) (name n)) as [E|E]; [|now apply IH].
    exfalso. apply Hfresh. rewrite E. now apply in_map.
Qed.

Lemma child_permutation (entries entries' : list node) (file_name : string) :
  Permutation entries entries' -> NoDup (map name entries) ->
  child entries file_name = child entries' file_name.
Proof.
  intros Hperm Hnd.
  assert (Hnd' : NoDup (map name entries')).
  { eapply Permutation_NoDup; [|exact Hnd]. now apply Permutation_map. }
  destruct (child entries file_name) as [n|] eqn:E.
  - apply child_in in E as [Hin <-]. symmetry. apply child_unique; [exact Hnd'|].
    now apply (Permutation_in n Hperm).
  - destruct (child entries' file_name) as [n|] eqn:E'; [|reflexivity].
    apply child_in in E' as [Hin <-].
    rewrite child_unique in E; [discriminate|exact Hnd|].
    now apply (Permutation_in n (Permutation_sym Hperm)).
Qed.

Section RootProbes.

Variable json_loads : string -> option pyval.
Variable py_repr : pyval -> string.

Variables r r' : repo.
Hypothesis same_children :
  forall file_name,
    child (repo_entries r) file_name = child (repo_entries r') file_name.

Lemma find_config_files_same : 
  find_config_files json_loads py_repr r = find_config_files json_loads py_repr r'.
Proof.
  unfold find_config_files, config_lines.
  rewrite (fold_left_ext (config_step json_loads py_repr (repo_entries r))
                         (config_step json_loads py_repr (repo_entries r'))).
  - reflexivity.
  - intros acc p _. unfold config_step. now rewrite same_children.
Qed.

Lemma find_entry_points_same : _find_entry_points r = _find_entry_points r'.
Proof.
  rewrite !find_entry_points_filter. apply filter_ext. intros f.
  unfold exists_. now rewrite same_children.
Qed.

Lemma find_readme_same : find_readme r = find_readme r'.
Proof.
  unfold find_readme. induction readme_patterns as [|p ps IH]; [reflexivity|].
  simpl. now rewrite same_children, IH.
Qed.

Lemma analyze_dependencies_same :
  _analyze_dependencies json_loads r = _analyze_dependencies json_loads r'.
Proof.
  unfold _analyze_dependencies, dependencies. now rewrite !same_children.
Qed.

Lemma detect_frameworks_same : _detect_frameworks r = _detect_frameworks r'.
Proof.
  unfold _detect_frameworks. apply fold_left_ext.
  intros acc [file_name framework_list] _. now rewrite same_children.
Qed.

End RootProbes.

(** X3: the functions that probe the root for known names give the same
    result whatever the order in which the file system lists the entries of
    the root. *)
Theorem root_probes_ignore_listing_order
        (json_loads : string -> option pyval) (py_repr : pyval -> string)
        (r r' : repo) :
  Permutation (repo_entries r) (repo_entries r') ->
  NoDup (root_names r) ->
  find_config_files json_loads py_repr r = find_config_files json_loads py_repr r'
  /\ _find_entry_points r = _find_entry_points r'
  /\ find_readme r = find_readme r'
  /\ _analyze_dependencies json_loads r = _analyze_dependencies json_loads r'
  /\ _detect_frameworks r = _detect_frameworks r'.
Proof.
  intros Hperm Hnd.
  assert (Hsame : forall file_name,
             child (repo_entries r) file_name = child (repo_entries r') file_name)
    by (intros file_name; now apply child_permutation).
  repeat split.
  - now apply find_config_files_same.
  - now apply find_entry_points_same.
  - now apply find_readme_same.
  - now apply analyze_dependencies_same.
  - now apply detect_frameworks_same.
Qed.

Lemma root_probes_ignore_listing_order_witness :
  find_config_files sample_json (fun _ => "") repo_with_config
  = find_config_files sample_json (fun _ => "")
      {| repo_name := "svc"; repo_entries := rev (repo_entries repo_with_config) |}.
Proof.
  apply (root_probes_ignore_listing_order sample_json (fun _ => "")
           repo_with_config
           {| repo_name := "svc"; repo_entries := rev (repo_entries repo_with_config) |}).
  - apply Permutation_rev.
  - unfold root_names. simpl.
    repeat (constructor; [simpl; intuition discriminate|]). constructor.
Defined.

(** ** The README lookup *)

(** X4: the README lookup returns the whole text of the first name of its
    list that is a file at the root; a directory bearing a README name is
    passed over, and the result is [None] exactly when no name of the list is
    a file at the root. *)
Theorem find_readme_first_file (repo_path : repo) :
  (find_readme repo_path = None
   <-> forall p, In p readme_patterns -> readable (repo_entries repo_path) p = None)
  /\ (forall text, find_readme repo_path = Some text ->
        exists before p after,
          readme_patterns = (before ++ p :: after)%list
          /\ readable (repo_entries repo_path) p = Some text
          /\ forall q, In q before -> readable (repo_entries repo_path) q = None).
Proof.
  unfold find_readme. generalize readme_patterns as patterns.
  intros patterns. split.
  - induction patterns as [|p ps IH]; simpl.
    + split; [intros _ q []|reflexivity].
    + unfold readable at 1.
      destruct (child (repo_entries repo_path) p) as [[n c|n sub]|] eqn:E; simpl.
      * split; [discriminate|]. intros H. specialize (H p (or_introl eq_refl)).
        unfold readable in H. rewrite E in H. discriminate.
      * rewrite IH. split.
        -- intros H q [<-|Hq]; [unfold readable; now rewrite E|now apply H].
        -- intros H q Hq. apply H. now right.
      * rewrite IH. split.
        -- intros H q [<-|Hq]; [unfold readable; now rewrite E|now apply H].
        -- intros H q Hq. apply H. now right.
  - intros text. induction patterns as [|p ps IH]; simpl; [discriminate|].
    destruct (readable (repo_entries repo_path) p) as [t|] eqn:E.
    + unfold readable in E.
      destruct (child (repo_entries repo_path) p) as [[n c|n sub]|] eqn:Ec;
        try discriminate.
      injection E as <-. simpl. intros H. injection H as <-.
      exists [], p, ps. repeat split.
      * unfold readable. now rewrite Ec.
      * intros q [].
    + assert (Hskip : match child (repo_entries repo_path) p with
                      | Some readme_path =>
                          match read_text readme_path with
                          | Ok content => Some content
                          | Raise _ => find_readme_in (repo_entries repo_path) ps
                          end
                      | None => find_readme_in (repo_entries repo_path) ps
                      end = find_readme_in (repo_entries repo_path) ps).
      { unfold readable in E.
        destruct (child (repo_entries repo_path) p) as [[n c|n sub]|];
          [discriminate|reflexivity|reflexivity]. }
      rewrite Hskip. intros H. destruct (IH H) as (before & q & after & -> & Hq & Hb).
      exists (p :: before), q, after. repeat split; auto.
      intros q' [<-|Hq']; [exact E|now apply Hb].
Qed.

(** ** The tree renderer, at any depth *)

(** X5: with a negative [max_depth] the rendering is the name of the root
    alone. *)
Theorem structure_negative_depth (repo_path : repo) (max_depth : Z) :
  (max_depth < 0)%Z ->
  get_project_structure repo_path max_depth = repo_name repo_path.
Proof.
  intros Hneg. unfold get_project_structure, structure_lines.
  cbn [add_directory].
  replace (0 >? max_depth)%Z with true by (symmetry; apply Z.gtb_lt; lia).
  reflexivity.
Qed.

Lemma structure_negative_depth_witness :
  get_project_structure repo_with_tree (-1) = "svc".
Proof.
  apply (structure_negative_depth repo_with_tree (-1)). reflexivity.
Defined.

Lemma prune_name (n : node) : name (prune n) = name n.
Proof. now destruct n. Qed.

Lemma listed_prune (n : node) : listed (prune n) = listed n.
Proof. unfold listed. now rewrite prune_name. Qed.

Lemma filter_listed_prune (entries : list node) :
  filter listed (map prune entries) = map prune (filter listed entries).
Proof.
  induction entries as [|e es IH]; simpl; [reflexivity|].
  rewrite listed_prune. destruct (listed e); simpl; now rewrite IH.
Qed.

Lemma filter_idempotent {A : Type} (p : A -> bool) (l : list A) :
  filter p (filter p l) = filter p l.
Proof.
  induction l as [|x l IH]; simpl; [reflexivity|].
  destruct (p x) eqn:E; simpl; [now rewrite E, IH|exact IH].
Qed.

Lemma insert_by_name_prune (x : node) (l : list node) :
  insert_by_name (prune x) (map prune l) = map prune (insert_by_name x l).
Proof.
  induction l as [|y l IH]; simpl; [reflexivity|].
  rewrite !prune_name. destruct (name x <=? name y); simpl; [reflexivity|].
  now rewrite IH.
Qed.

Lemma sorted_prune (l : list node) : sorted (map prune l) = map prune (sorted l).
Proof.
  induction l as [|x l IH]; simpl; [reflexivity|].
  now rewrite IH, insert_by_name_prune.
Qed.

Lemma enumerate_map {A B : Type} (f : A -> B) (l : list A) :
  enumerate (map f l) = map (fun ix => (fst ix, f (snd ix))) (enumerate l).
Proof.
  unfold enumerate. rewrite length_map.
  generalize (seq 0 (List.length l)) as idx.
  induction l as [|x l IH]; intros [|i idx]; simpl; try reflexivity.
  now rewrite IH.
Qed.

Lemma flat_map_map {A B C : Type} (f : A -> B) (g : B -> list C) (l : list A) :
  flat_map g (map f l) = flat_map (fun x => g (f x)) l.
Proof.
  induction l as [|x l IH]; simpl; [reflexivity|now rewrite IH].
Qed.

Lemma add_directory_prune (fuel : nat) (max_depth : Z) (entries : list node)
      (prefix : string) (depth : Z) :
  add_directory fuel max_depth (prune_entries entries) prefix depth
  = add_directory fuel max_depth entries prefix depth.
Proof.
  revert entries prefix depth.
  induction fuel as [|fuel IH]; intros entries prefix depth; [reflexivity|].
  cbn [add_directory]. destruct (depth >? max_depth)%Z; [reflexivity|].
  unfold prune_entries.
  rewrite filter_idempotent, filter_listed_prune, sorted_prune.
  rewrite enumerate_map, flat_map_map, length_map.
  apply flat_map_ext. intros [i item]. cbn [fst snd].
  rewrite prune_name. f_equal.
  destruct item as [n c|n sub]; [reflexivity|].
  cbn [prune]. destruct (depth <? max_depth)%Z; [|reflexivity].
  apply (IH sub).
Qed.

(** X6: entries whose name begins with a dot or is on the deny list have no
    influence on the rendering, at whatever depth of the tree they sit:
    taking them all out of the repository leaves every line as it was. *)
Theorem structure_ignores_unlisted (repo_path : repo) (max_depth : Z) :
  get_project_structure
    {| repo_name := repo_name repo_path;
       repo_entries := prune_entries (repo_entries repo_path) |} max_depth
  = get_project_structure repo_path max_depth.
Proof.
  unfold get_project_structure, structure_lines. cbn [repo_name repo_entries].
  now rewrite add_directory_prune.
Qed.

(** ** Names in the dependency summary *)

Lemma prefix_app (p a b : string) :
  String.prefix p a = true -> String.prefix p (a ++ b) = true.
Proof.
  revert a. induction p as [|c p IH]; intros a H.
  - apply prefix_empty.
  - destruct a as [|d a]; [discriminate|]. simpl in *.
    destruct (ascii_dec c d); [now apply IH|discriminate].
Qed.

Lemma before_is_prefix (sep s : string) :
  exists rest, s = PyStr.before sep s ++ rest.
Proof.
  induction s as [|a s [rest IH]].
  - exists "". now destruct sep.
  - cbn [PyStr.before]. destruct (String.prefix sep (String a s)).
    + now exists (String a s).
    + exists rest. simpl. now rewrite <- IH.
Qed.

Lemma contains_nil (x : string) : PyStr.contains x "" = String.prefix x "".
Proof. simpl. apply orb_false_r. Qed.

Lemma contains_cons (x : string) (c : ascii) (s : string) :
  PyStr.contains x (String c s)
  = String.prefix x (String c s) || PyStr.contains x s.
Proof. reflexivity. Qed.

Lemma contains_app (x a b : string) :
  PyStr.contains x a = true -> PyStr.contains x (a ++ b) = true.
Proof.
  induction a as [|c a IH].
  - rewrite contains_nil. intros H. destruct x; [|discriminate].
    destruct b; reflexivity.
  - rewrite contains_cons. intros H. apply orb_true_iff in H as [H|H].
    + change (String c a ++ b) with (String c (a ++ b)). rewrite contains_cons.
      change (String c (a ++ b)) with (String c a ++ b).
      now rewrite (prefix_app _ _ _ H).
    + change (String c a ++ b) with (String c (a ++ b)). rewrite contains_cons.
      rewrite (IH H). apply orb_true_r.
Qed.

Lemma contains_before (x sep s : string) :
  PyStr.contains x s = false -> PyStr.contains x (PyStr.before sep s) = false.
Proof.
  intros H. destruct (before_is_prefix sep s) as [rest E].
  destruct (PyStr.contains x (PyStr.before sep s)) eqn:C; [|reflexivity].
  rewrite E, (contains_app _ _ rest C) in H. discriminate.
Qed.

Lemma before_nil (sep : string) : PyStr.before sep "" = "".
Proof. now destruct sep. Qed.

Lemma before_cons (sep : string) (a : ascii) (s : string) :
  PyStr.before sep (String a s)
  = if String.prefix sep (String a s) then "" else String a (PyStr.before sep s).
Proof. reflexivity. Qed.

Lemma before_has_no_sep (sep s : string) :
  sep <> "" -> PyStr.contains sep (PyStr.before sep s) = false.
Proof.
  intros Hsep.
  assert (Hnil : PyStr.contains sep "" = false).
  { rewrite contains_nil. destruct sep; [congruence|reflexivity]. }
  induction s as [|a s IH].
  - now rewrite before_nil.
  - rewrite before_cons.
    destruct (String.prefix sep (String a s)) eqn:P; [exact Hnil|].
    rewrite contains_cons, IH, orb_false_r.
    destruct (String.prefix sep (String a (PyStr.before sep s))) eqn:Q; [|reflexivity].
    destruct (before_is_prefix sep s) as [rest E].
    apply (prefix_app _ _ rest) in Q.
    change (String a (PyStr.before sep s) ++ rest)
      with (String a (PyStr.before sep s ++ rest)) in Q.
    rewrite <- E in Q. congruence.
Qed.

Lemma before_without_sep (sep s : string) :
  PyStr.contains sep s = false -> PyStr.before sep s = s.
Proof.
  induction s as [|a s IH]; intros H.
  - apply before_nil.
  - rewrite contains_cons in H. apply orb_false_iff in H as [P C].
    rewrite before_cons, P. now rewrite IH.
Qed.

(** X7: the name taken from a requirements line is a prefix of the line
    that holds none of the pins [==], [>=] and [~=], and a line without them
    is kept whole, white space included. *)
Theorem dependency_name_cuts_pins (line : string) :
  (exists rest, line = dependency_name line ++ rest)
  /\ (forall pin, In pin version_pins ->
        PyStr.contains pin (dependency_name line) = false)
  /\ ((forall pin, In pin version_pins -> PyStr.contains pin line = false) ->
      dependency_name line = line).
Proof.
  unfold dependency_name. split; [|split].
  - destruct (before_is_prefix "==" line) as [r1 E1].
    destruct (before_is_prefix ">=" (PyStr.before "==" line)) as [r2 E2].
    destruct (before_is_prefix "~=" (PyStr.before ">=" (PyStr.before "==" line)))
      as [r3 E3].
    exists (r3 ++ r2 ++ r1). rewrite E1 at 1. rewrite E2 at 1. rewrite E3 at 1.
    clear. generalize (PyStr.before "~=" (PyStr.before ">=" (PyStr.before "==" line))).
    intros s. induction s as [|c s IH]; simpl.
    + induction r3 as [|c r3 IH]; simpl; [reflexivity|now rewrite IH].
    + now rewrite IH.
  - intros pin Hpin. simpl in Hpin.
    destruct Hpin as [<-|[<-|[<-|[]]]].
    + apply contains_before, contains_before. apply before_has_no_sep. discriminate.
    + apply contains_before. apply before_has_no_sep. discriminate.
    + apply before_has_no_sep. discriminate.
  - intros H.
    rewrite (before_without_sep "==" line) by (apply H; simpl; tauto).
    rewrite (before_without_sep ">=" line) by (apply H; simpl; tauto).
    apply before_without_sep. apply H. simpl. tauto.
Qed.

(** ** Language detection *)

Lemma mem_In (x : string) (l : list string) : mem x l = true <-> In x l.
Proof.
  unfold mem. rewrite existsb_exists. split.
  - intros (y & Hy & E). apply String.eqb_eq in E. now subst.
  - intros H. exists x. split; [exact H|apply String.eqb_refl].
Qed.

Lemma set_add_NoDup (found : list string) (language : string) :
  NoDup found -> NoDup (set_add found language).
Proof.
  intros H. unfold set_add, append.
  destruct (mem language found) eqn:E; [exact H|].
  apply NoDup_app; [exact H|repeat constructor; intros []| ].
  intros x Hx [<-|[]]. apply mem_In in Hx. congruence.
Qed.

Lemma set_add_In (found : list string) (language x : string) :
  In x (set_add found language) <-> In x found \/ x = language.
Proof.
  unfold set_add, append. destruct (mem language found) eqn:E.
  - apply mem_In in E. split; [tauto|]. intros [H| ->]; assumption.
  - rewrite in_app_iff. simpl. intuition.
Qed.

Lemma language_fold (files : list node) (found : list string) :
  NoDup found ->
  NoDup (fold_left language_step files found)
  /\ (forall x, In x (fold_left language_step files found)
                <-> In x found
                    \/ exists e, In e files /\ language_of_entry e = Some x).
Proof.
  revert found. induction files as [|f files IH]; intros found Hnd; simpl.
  - split; [exact Hnd|]. intros x. split; [tauto|]. intros [H|(e & [] & _)]. exact H.
  - assert (Hstep : NoDup (language_step found f)).
    { unfold language_step. destruct f; [|exact Hnd].
      destruct (language_of _); [now apply set_add_NoDup|exact Hnd]. }
    destruct (IH _ Hstep) as [Hnd' Hin]. split; [exact Hnd'|].
    intros x. rewrite Hin. unfold language_step, language_of_entry.
    destruct f as [n c|n sub].
    + destruct (language_of (suffix (File n c))) as [lang|] eqn:E.
      * rewrite set_add_In. split.
        -- intros [[H| ->]|(e & He & Hl)]; [now left| |].
           ++ right. exists (File n c). split; [now left|exact E].
           ++ right. exists e. split; [now right|exact Hl].
        -- intros [H|(e & [<-|He] & Hl)]; [now left; left| |].
           ++ left. right. rewrite E in Hl. congruence.
           ++ right. now exists e.
      * split.
        -- intros [H|(e & He & Hl)]; [now left|]. right. exists e. split; [now right|exact Hl].
        -- intros [H|(e & [<-|He] & Hl)]; [now left|rewrite E in Hl; discriminate|].
           right. now exists e.
    + split.
      * intros [H|(e & He & Hl)]; [now left|]. right. exists e. split; [now right|exact Hl].
      * intros [H|(e & [<-|He] & Hl)]; [now left|discriminate|]. right. now exists e.
Qed.

Lemma filter_all {A : Type} (p : A -> bool) (l : list A) :
  (forall x, p x = true) -> filter p l = l.
Proof.
  intros H. induction l as [|x l IH]; [reflexivity|].
  cbn [filter]. now rewrite H, IH.
Qed.

Lemma rglob_everything (fold_case : bool) (entries : list node) :
  rglob fold_case entries "*" = walk_entries entries.
Proof.
  unfold rglob. apply filter_all. intros e. apply glob_match_star.
Qed.

Lemma language_of_known (sfx language : string) :
  language_of sfx = Some language -> In language (map snd language_extensions).
Proof.
  unfold language_of. destruct (find _ language_extensions) as [kv|] eqn:E;
    [|discriminate].
  intros H. injection H as <-. apply find_some in E as [Hin _]. now apply in_map.
Qed.

(** X8: the detected languages are free of duplicates; a language is
    reported exactly when some file, at any depth of the tree, hidden or not,
    has an extension of the table mapped to it, and a directory never counts,
    whatever its name; at most eleven languages are reported. *)
Theorem detect_languages_spec (fold_case : bool) (repo_path : repo) :
  NoDup (_detect_languages fold_case repo_path)
  /\ (forall language,
        In language (_detect_languages fold_case repo_path)
        <-> exists e, In e (walk_entries (repo_entries repo_path))
                      /\ is_dir e = false
                      /\ language_of (suffix e) = Some language)
  /\ List.length (_detect_languages fold_case repo_path) <= 11.
Proof.
  unfold _detect_languages. rewrite rglob_everything.
  change (fun found_languages file_path =>
            match file_path, language_of (suffix file_path) with
            | File _ _, Some language => set_add found_languages language
            | _, _ => found_languages
            end) with language_step.
  destruct (language_fold (walk_entries (repo_entries repo_path)) [] (NoDup_nil _))
    as [Hnd Hin].
  split; [exact Hnd|]. split.
  - intros language. rewrite Hin. split.
    + intros [[]|(e & He & Hl)]. exists e. split; [exact He|].
      destruct e; [now split|discriminate].
    + intros (e & He & Hd & Hl). right. exists e. split; [exact He|].
      destruct e; [exact Hl|discriminate].
  - change 11 with (List.length (map snd language_extensions)).
    apply NoDup_incl_length; [exact Hnd|].
    intros x Hx. apply Hin in Hx as [[]|(e & _ & Hl)].
    destruct e; [|discriminate]. exact (language_of_known _ _ Hl).
Qed.

(** ** Framework detection and what it raises *)

Lemma fold_left_append_map_filter {A B : Type} (p : A -> bool) (f : A -> B)
      (l : list A) (acc : list B) :
  fold_left (fun acc x => if p x then append acc (f x) else acc) l acc
  = (acc ++ map f (filter p l))%list.
Proof.
  revert acc. induction l as [|x l IH]; intros acc; simpl.
  - now rewrite app_nil_r.
  - rewrite IH. destruct (p x); [|reflexivity].
    unfold append. simpl. now rewrite <- app_assoc.
Qed.

Lemma framework_fold_raise (repo_path : repo) (table : list (string * list string))
      (e : exn) :
  fold_left (framework_step repo_path) table (Raise e) = Raise e.
Proof. induction table as [|row table IH]; [reflexivity|exact IH]. Qed.

Lemma framework_fold (repo_path : repo) (table : list (string * list string))
      (acc : list string) :
  fold_left (framework_step repo_path) table (Ok acc)
  = if existsb (manifest_is_dir repo_path) (map fst table)
    then Raise IsADirectoryError
    else Ok (acc ++ flat_map (frameworks_of repo_path) table)%list.
Proof.
  revert acc. induction table as [|[file_name tokens] table IH]; intros acc.
  - simpl. now rewrite app_nil_r.
  - cbn [fold_left map existsb fst flat_map].
    unfold framework_step at 2, manifest_is_dir at 1, frameworks_of at 1.
    cbn [bind fst snd].
    destruct (child (repo_entries repo_path) file_name) as [[n c|n sub]|].
    + cbn [read_text bind orb]. rewrite fold_left_append_map_filter, IH.
      destruct (existsb _ _); [reflexivity|]. now rewrite <- app_assoc.
    + cbn [read_text bind orb]. apply framework_fold_raise.
    + cbn [orb]. rewrite IH. now destruct (existsb _ _).
Qed.

Lemma detect_frameworks_value (repo_path : repo) :
  _detect_frameworks repo_path
  = if any_manifest_is_dir repo_path then Raise IsADirectoryError
    else Ok (flat_map (frameworks_of repo_path) framework_indicators).
Proof. exact (framework_fold repo_path framework_indicators []). Qed.

(** X9: framework detection raises [IsADirectoryError] exactly when one of
    its five manifests is a directory at the root; otherwise it reports, row
    by row of its table and token by token, the title-cased tokens that occur
    in the lower-cased text of the manifest, a token found in two manifests
    being reported twice. *)
Theorem detect_frameworks_spec (repo_path : repo) :
  (_detect_frameworks repo_path = Raise IsADirectoryError
   <-> exists file_name sub,
         In file_name (map fst framework_indicators)
         /\ child (repo_entries repo_path) file_name = Some (Dir file_name sub))
  /\ (any_manifest_is_dir repo_path = false ->
      _detect_frameworks repo_path
      = Ok (flat_map (frameworks_of repo_path) framework_indicators))
  /\ (forall framework,
        In framework (flat_map (frameworks_of repo_path) framework_indicators)
        <-> exists file_name tokens token n content,
              In (file_name, tokens) framework_indicators
              /\ In token tokens
              /\ child (repo_entries repo_path) file_name = Some (File n content)
              /\ PyStr.contains token (PyStr.lower content) = true
              /\ framework = PyStr.title token).
Proof.
  rewrite detect_frameworks_value. split; [|split].
  - unfold any_manifest_is_dir. split.
    + destruct (existsb _ _) eqn:E; [|discriminate]. intros _.
      apply existsb_exists in E as (file_name & Hin & Hd).
      unfold manifest_is_dir in Hd.
      destruct (child (repo_entries repo_path) file_name) as [[n c|n sub]|] eqn:Hc;
        try discriminate.
      apply child_in in Hc as Hn. destruct Hn as [_ Hn]. simpl in Hn. subst n.
      now exists file_name, sub.
    + intros (file_name & sub & Hin & Hc).
      replace (existsb (manifest_is_dir repo_path) (map fst framework_indicators))
        with true; [reflexivity|].
      symmetry. apply existsb_exists. exists file_name. split; [exact Hin|].
      unfold manifest_is_dir. now rewrite Hc.
  - intros H. now rewrite H.
  - intros framework. rewrite in_flat_map. split.
    + intros ([file_name tokens] & Hrow & Hin). unfold frameworks_of in Hin.
      cbn [fst snd] in Hin.
      destruct (child (repo_entries repo_path) file_name) as [[n c|n sub]|] eqn:Hc;
        try destruct Hin.
      apply in_map_iff in Hin as (token & <- & Htok).
      apply filter_In in Htok as [Htok Hc'].
      now exists file_name, tokens, token, n, c.
    + intros (file_name & tokens & token & n & content & Hrow & Htok & Hc & Hin & ->).
      exists (file_name, tokens). split; [exact Hrow|].
      unfold frameworks_of. cbn [fst snd]. rewrite Hc.
      apply in_map. apply filter_In. now split.
Qed.

(** ** What [_analyze_repository] raises *)

Lemma analyze_dependencies_value (json_loads : string -> option pyval)
      (repo_path : repo) :
  (forall content v, json_loads content = Some v -> Py.str_keys v = true) ->
  _analyze_dependencies json_loads repo_path
  = if requirements_is_dir repo_path then Raise IsADirectoryError
    else Ok (PyStr.join ", "
               (firstn 10 (firstn 5 (python_names repo_path)
                           ++ firstn 5 (direct_dependencies json_loads repo_path)))).
Proof.
  intros Hkeys. unfold _analyze_dependencies.
  rewrite (dependencies_names json_loads Hkeys).
  destruct (requirements_is_dir repo_path); cbn [bind]; [reflexivity|].
  apply summary_join.
Qed.

Lemma requirements_dir_is_manifest_dir (repo_path : repo) :
  any_manifest_is_dir repo_path = false -> requirements_is_dir repo_path = false.
Proof.
  unfold any_manifest_is_dir, requirements_is_dir. intros H.
  destruct (child (repo_entries repo_path) "requirements.txt") as [[n c|n sub]|] eqn:E;
    try reflexivity.
  assert (Hex : existsb (manifest_is_dir repo_path) (map fst framework_indicators)
                = true); [|congruence].
  apply existsb_exists. exists "requirements.txt". split; [simpl; tauto|].
  unfold manifest_is_dir. now rewrite E.
Qed.

Lemma analyze_codebase_value (json_loads : string -> option pyval)
      (fold_case : bool) (repo_path : repo) :
  (forall content v, json_loads content = Some v -> Py.str_keys v = true) ->
  if any_manifest_is_dir repo_path
  then analyze_codebase json_loads fold_case repo_path = Raise IsADirectoryError
  else exists insights, analyze_codebase json_loads fold_case repo_path = Ok insights.
Proof.
  intros Hkeys. unfold analyze_codebase.
  rewrite detect_frameworks_value.
  destruct (any_manifest_is_dir repo_path) eqn:E; [reflexivity|].
  cbn [bind]. rewrite (analyze_dependencies_value _ _ Hkeys).
  rewrite (requirements_dir_is_manifest_dir _ E). cbn [bind]. eauto.
Qed.

(** X10: building the analysis raises [IsADirectoryError] exactly when one of
    the five manifests of the framework table is a directory at the root, the
    unguarded reads of [_detect_frameworks] and [_analyze_dependencies] being
    the only steps that can raise; otherwise the record holds what the four
    finders return. *)
Theorem analyze_repository_raises
        (json_loads yaml_safe_load : string -> option pyval)
        (py_repr : pyval -> string) (fold_case : bool) (repo_path : repo) :
  (forall content v, json_loads content = Some v -> Py.str_keys v = true) ->
  (any_manifest_is_dir repo_path = true ->
   _analyze_repository json_loads yaml_safe_load py_repr fold_case repo_path
   = Raise IsADirectoryError)
  /\ (any_manifest_is_dir repo_path = false ->
      exists insights,
        analyze_codebase json_loads fold_case repo_path = Ok insights
        /\ _analyze_repository json_loads yaml_safe_load py_repr fold_case repo_path
           = Ok {| structure := get_project_structure repo_path 3;
                   readme := find_readme repo_path;
                   api_specs_text :=
                     find_api_specs json_loads yaml_safe_load py_repr fold_case
                                    repo_path;
                   code_analysis := insights;
                   config_files := find_config_files json_loads py_repr repo_path |}).
Proof.
  intros Hkeys.
  pose proof (analyze_codebase_value json_loads fold_case repo_path Hkeys) as H.
  unfold _analyze_repository. split; intros E; rewrite E in H.
  - now rewrite H.
  - destruct H as [insights H]. exists insights. split; [exact H|]. now rewrite H.
Qed.

Lemma analyze_repository_raises_witness :
  _analyze_repository sample_json sample_yaml (fun _ => "") false
                      repo_with_dir_manifest
  = Raise IsADirectoryError
  /\ find_config_files sample_json (fun _ => "") repo_with_dir_manifest
     = "- go.mod".
Proof.
  split; [|reflexivity].
  apply (proj1 (analyze_repository_raises sample_json sample_yaml (fun _ => "")
                  false repo_with_dir_manifest sample_json_str_keys)).
  reflexivity.
Defined.

(** ** The report on API specifications, pass by pass *)

Lemma head_ok_app {A : Type} (P : A -> Prop) (l1 l2 : list A) :
  head_ok P l1 -> head_ok P l2 -> head_ok P (l1 ++ l2).
Proof. now destruct l1. Qed.

Lemma head_ok_flat_map {A B : Type} (P : B -> Prop) (g : A -> list B) (l : list A) :
  (forall x, head_ok P (g x)) -> head_ok P (flat_map g l).
Proof.
  intros H. induction l as [|x l IH]; simpl; [exact I|].
  now apply head_ok_app.
Qed.

Section Report.

Variable json_loads : string -> option pyval.
Variable yaml_safe_load : string -> option pyval.
Variable py_repr : pyval -> string.
Variable fold_case : bool.

#[local] Abbreviation specs_of :=
  (api_specs json_loads yaml_safe_load py_repr fold_case).
#[local] Abbreviation extras_of :=
  (extraction_lines json_loads yaml_safe_load py_repr).

Lemma api_specs_passes (repo_path : repo) :
  specs_of repo_path
  = (flat_map (fun f => openapi_header f :: extras_of f)
              (filter is_spec_suffix (openapi_files fold_case repo_path))
     ++ map graphql_header
            (filter is_graphql_suffix (graphql_files fold_case repo_path))
     ++ flat_map (docs_lines fold_case) (api_docs fold_case repo_path))%list.
Proof.
  unfold api_specs. rewrite openapi_specs_lines.
  rewrite (fold_left_flat_map graphql_step
             (fun f => if is_graphql_suffix f then [graphql_header f] else [])).
  - rewrite (fold_left_flat_map (api_docs_step fold_case) (docs_lines fold_case)).
    + rewrite <- app_assoc. f_equal. f_equal.
      unfold graphql_files.
      induction (rglob fold_case (repo_entries repo_path) "*.graphql"
                 ++ rglob fold_case (repo_entries repo_path) "*schema*")%list
        as [|f l IH]; [reflexivity|].
      simpl. destruct (is_graphql_suffix f); simpl; now rewrite IH.
    + intros acc [n c|n sub]; simpl; [now rewrite app_nil_r|].
      destruct (rglob fold_case sub "*.md"); [now rewrite app_nil_r|reflexivity].
  - intros acc f. unfold graphql_step, is_graphql_suffix, graphql_header.
    destruct (mem (suffix f) [".graphql"; ".gql"]);
      [reflexivity|now rewrite app_nil_r].
Qed.

Lemma api_specs_head (repo_path : repo) :
  head_ok (fun line => is_header line = true) (specs_of repo_path).
Proof.
  rewrite api_specs_passes. repeat apply head_ok_app.
  - apply head_ok_flat_map. intros f. simpl. unfold is_header, openapi_header.
    now destruct (name f).
  - destruct (filter is_graphql_suffix (graphql_files fold_case repo_path))
      as [|f l]; [exact I|].
    simpl. unfold is_header, graphql_header. now destruct (name f).
  - apply head_ok_flat_map. intros [n c|n sub]; simpl; [exact I|].
    destruct (rglob fold_case sub "*.md"); [exact I|]. simpl.
    unfold is_header. now destruct n.
Qed.

Lemma header_first_char (line : string) :
  is_header line = true ->
  exists c rest, line = String c rest /\ c <> "N"%char.
Proof.
  destruct line as [|c rest]; [discriminate|]. intros H.
  exists c, rest. split; [reflexivity|]. intros ->. discriminate H.
Qed.

Lemma find_api_specs_value (repo_path : repo) :
  find_api_specs json_loads yaml_safe_load py_repr fold_case repo_path <> ""
  /\ (find_api_specs json_loads yaml_safe_load py_repr fold_case repo_path
      = no_api_marker <-> specs_of repo_path = []).
Proof.
  pose proof (api_specs_head repo_path) as Hhead. unfold find_api_specs.
  destruct (specs_of repo_path) as [|line rest]; [now split|].
  simpl in Hhead. destruct (header_first_char _ Hhead) as (c & t & -> & Hc).
  split.
  - apply join_first_nonempty. discriminate.
  - split; [|discriminate]. intros H. exfalso.
    unfold PyStr.join in H. simpl in H.
    destruct rest; injection H as H _; now apply Hc.
Qed.


End Report.

(** ** The assembled context of an analysed repository *)

Lemma section_block_present (label data : string) :
  data <> "" -> section_block label data = [label ++ newline ++ data].
Proof.
  intros H. unfold section_block. apply String.eqb_neq in H. now rewrite H.
Qed.

Lemma assembled_blocks_nonempty (analysis : AnalysisRecord) (block : string) :
  In block (assembled_blocks analysis) -> block <> "".
Proof.
  unfold assembled_blocks, section_block, readme_section, readme_block.
  rewrite !in_app_iff.
  intros [H|[H|[H|[H|H]]]];
    repeat match type of H with
           | In _ (if ?c then _ else _) => destruct c
           | In _ (match ?r with Some _ => _ | None => _ end) => destruct r
           end;
    simpl in H; try tauto; destruct H as [<-|[]]; discriminate.
Qed.

(** X12: for every record that [_analyze_repository] returns, the API and
    the configuration section hold a non-empty text (a report or its
    placeholder marker), so the assembler emits both blocks and its two
    tests on them never fail: the context is never empty and always ends
    with the configuration block. *)
Theorem analysed_context_has_api_and_config
        (json_loads yaml_safe_load : string -> option pyval)
        (py_repr : pyval -> string) (fold_case : bool) (repo_path : repo)
        (analysis : AnalysisRecord) :
  _analyze_repository json_loads yaml_safe_load py_repr fold_case repo_path
  = Ok analysis ->
  context_parts analysis
  = (section_block "**Project Structure:**" (structure analysis)
     ++ readme_section (readme analysis)
     ++ api_section (find_api_specs json_loads yaml_safe_load py_repr fold_case
                                    repo_path)
     ++ section_block "**Code Analysis:**" (code_analysis analysis)
     ++ config_section (find_config_files json_loads py_repr repo_path))%list
  /\ _prepare_llm_context analysis <> "".
Proof.
  intros Hok.
  assert (Hfields : api_specs_text analysis
                    = find_api_specs json_loads yaml_safe_load py_repr fold_case
                                     repo_path
                    /\ config_files analysis
                       = find_config_files json_loads py_repr repo_path).
  { unfold _analyze_repository in Hok.
    destruct (analyze_codebase json_loads fold_case repo_path); [|discriminate].
    cbn [bind] in Hok. injection Hok as <-. now split. }
  destruct Hfields as [Hapi Hconf].
  assert (Hparts : context_parts analysis
    = (section_block "**Project Structure:**" (structure analysis)
       ++ readme_section (readme analysis)
       ++ api_section (find_api_specs json_loads yaml_safe_load py_repr fold_case
                                      repo_path)
       ++ section_block "**Code Analysis:**" (code_analysis analysis)
       ++ config_section (find_config_files json_loads py_repr repo_path))%list).
  { rewrite context_parts_blocks. unfold assembled_blocks.
    rewrite (section_block_present "**API Specifications:**" (api_specs_text analysis)),
            (section_block_present "**Configuration:**" (config_files analysis)).
    - now rewrite Hapi, Hconf.
    - rewrite Hconf. apply find_config_files_nonempty.
    - rewrite Hapi. apply find_api_specs_value. }
  split; [exact Hparts|].
  unfold _prepare_llm_context.
  destruct (context_parts analysis) as [|block rest] eqn:E.
  - exfalso. symmetry in Hparts.
    apply app_eq_nil in Hparts as [_ Hparts].
    apply app_eq_nil in Hparts as [_ Hparts].
    apply app_eq_nil in Hparts as [Hparts _]. discriminate Hparts.
  - apply join_first_nonempty.
    apply (assembled_blocks_nonempty analysis). rewrite <- context_parts_blocks, E.
    now left.
Qed.

Lemma analysed_context_has_api_and_config_witness :
  exists analysis,
    _analyze_repository sample_json sample_yaml (fun _ => "") false empty_repo
    = Ok analysis
    /\ _prepare_llm_context analysis <> "".
Proof.
  exists analysis_of_empty_repo. split; [reflexivity|].
  exact (proj2 (analysed_context_has_api_and_config
                  sample_json sample_yaml (fun _ => "") false empty_repo
                  analysis_of_empty_repo eq_refl)).
Defined.

(** ** The GraphQL pass and the documentation pass *)

Lemma glob_match_literal (lit s : string) :
  no_star lit = true -> glob_match lit s = (s =? lit).
Proof.
  revert s. induction lit as [|c lit IH]; intros s Hlit; [reflexivity|].
  simpl in Hlit. apply andb_true_iff in Hlit as [Hc Hlit].
  apply negb_true_iff in Hc.
  change (glob_match (String c lit) s)
    with ((if Ascii.eqb c "*" then glob_match (String "*" lit)
           else fun s => match s with
                         | EmptyString => false
                         | String d s' => Ascii.eqb c d && glob_match lit s'
                         end) s).
  rewrite Hc. destruct s as [|d s]; [reflexivity|]. simpl.
  rewrite IH by exact Hlit. rewrite (Ascii.eqb_sym c d). reflexivity.
Qed.

Lemma glob_match_ending (lit s : string) :
  no_star lit = true -> glob_match (String "*" lit) s = ends_with lit s.
Proof.
  intros Hlit. induction s as [|c s IH].
  - change (glob_match (String "*" lit) "") with (glob_match lit "" || false).
    now rewrite glob_match_literal.
  - change (glob_match (String "*" lit) (String c s))
      with (glob_match lit (String c s) || glob_match (String "*" lit) s).
    now rewrite glob_match_literal, IH.
Qed.

Lemma ends_with_nil (p : string) : ends_with p "" = ("" =? p).
Proof. cbn [ends_with]. apply orb_false_r. Qed.

Lemma ends_with_cons (p : string) (c : ascii) (s : string) :
  ends_with p (String c s) = (String c s =? p) || ends_with p s.
Proof. reflexivity. Qed.

Lemma ends_with_refl (p : string) : ends_with p p = true.
Proof.
  destruct p as [|c p]; [reflexivity|].
  now rewrite ends_with_cons, String.eqb_refl.
Qed.

Lemma ends_with_exclusive (a b s : string) :
  ends_with a b = false -> ends_with b a = false ->
  ends_with a s = true -> ends_with b s = true -> False.
Proof.
  intros Hab Hba. induction s as [|c s IH]; intros Ha Hb.
  - rewrite ends_with_nil in Ha, Hb.
    apply String.eqb_eq in Ha, Hb. subst a. subst b.
    rewrite ends_with_refl in Hab. discriminate.
  - rewrite ends_with_cons in Ha, Hb.
    destruct (String.eqb_spec (String c s) a) as [Ea|Na].
    + subst a. rewrite ends_with_cons in Hba.
      destruct (String.eqb_spec (String c s) b) as [Eb|Nb].
      * discriminate Hba.
      * simpl in Hb, Hba. congruence.
    + destruct (String.eqb_spec (String c s) b) as [Eb|Nb].
      * subst b. rewrite ends_with_cons in Hab.
        apply String.eqb_neq in Na. rewrite Na in Hab. simpl in Ha, Hab. congruence.
      * simpl in Ha, Hb. now apply IH.
Qed.

Lemma ends_with_lower (p s : string) :
  ends_with p s = true -> ends_with (PyStr.lower p) (PyStr.lower s) = true.
Proof.
  induction s as [|c s IH]; intros H.
  - rewrite ends_with_nil in H. apply String.eqb_eq in H. subst p. reflexivity.
  - rewrite ends_with_cons in H. apply orb_true_iff in H as [H|H].
    + apply String.eqb_eq in H. subst p. apply ends_with_refl.
    + change (PyStr.lower (String c s))
        with (String (PyStr.lower_char c) (PyStr.lower s)).
      rewrite ends_with_cons, (IH H). apply orb_true_r.
Qed.

Lemma from_last_dot_ends (s e : string) :
  from_last_dot s = Some e -> ends_with e s = true.
Proof.
  revert e. induction s as [|c s IH]; intros e; [discriminate|].
  cbn [from_last_dot]. rewrite ends_with_cons.
  destruct (from_last_dot s) as [e'|].
  - intros H. injection H as <-. rewrite (IH e' eq_refl). apply orb_true_r.
  - destruct (Ascii.eqb c "."); [|discriminate].
    intros H. injection H as <-. now rewrite String.eqb_refl.
Qed.

Lemma suffix_ends (n : node) (sfx : string) :
  suffix n = sfx -> sfx <> "" -> ends_with sfx (name n) = true.
Proof.
  unfold suffix. destruct (name n) as [|c rest]; [congruence|].
  destruct (from_last_dot rest) as [e|] eqn:E; [|congruence].
  destruct (String.length e =? 1)%nat; [congruence|].
  intros <- _. rewrite ends_with_cons, (from_last_dot_ends _ _ E).
  apply orb_true_r.
Qed.

Lemma prefix_lower (p s : string) :
  String.prefix p s = true ->
  String.prefix (PyStr.lower p) (PyStr.lower s) = true.
Proof.
  revert s. induction p as [|c p IH]; intros s H.
  - apply prefix_empty.
  - destruct s as [|d s]; [discriminate|]. simpl in H.
    destruct (ascii_dec c d) as [->|]; [|discriminate].
    simpl. destruct (ascii_dec (PyStr.lower_char d) (PyStr.lower_char d));
      [now apply IH|congruence].
Qed.

Lemma contains_lower (kw s : string) :
  PyStr.contains kw s = true ->
  PyStr.contains (PyStr.lower kw) (PyStr.lower s) = true.
Proof.
  induction s as [|c s IH]; intros H.
  - rewrite contains_nil in H. destruct kw; [reflexivity|discriminate].
  - rewrite contains_cons in H.
    change (PyStr.lower (String c s))
      with (String (PyStr.lower_char c) (PyStr.lower s)).
    rewrite contains_cons. apply orb_true_iff in H as [H|H].
    + apply prefix_lower in H.
      change (PyStr.lower (String c s))
        with (String (PyStr.lower_char c) (PyStr.lower s)) in H.
      now rewrite H.
    + rewrite (IH H). apply orb_true_r.
Qed.

Section Passes.

Variable fold_case : bool.

Lemma gql_is_not_graphql (e : node) :
  suffix e = ".gql" -> ends_with ".graphql" (glob_name fold_case e) = false.
Proof.
  intros Hs. destruct (ends_with ".graphql" (glob_name fold_case e)) eqn:E;
    [|reflexivity].
  exfalso. apply (ends_with_exclusive ".gql" ".graphql" (glob_name fold_case e));
    try reflexivity; [|exact E].
  pose proof (suffix_ends e ".gql" Hs ltac:(discriminate)) as H.
  unfold glob_name. destruct fold_case; [|exact H].
  exact (ends_with_lower ".gql" (name e) H).
Qed.

Lemma graphql_files_filters (repo_path : repo) :
  filter is_graphql_suffix (graphql_files fold_case repo_path)
  = (filter (fun e => is_graphql_suffix e
                      && ends_with ".graphql" (glob_name fold_case e))
            (walk_entries (repo_entries repo_path))
     ++ filter (fun e => is_graphql_suffix e
                         && PyStr.contains "schema" (glob_name fold_case e))
               (walk_entries (repo_entries repo_path)))%list.
Proof.
  unfold graphql_files, rglob. rewrite filter_app, !filter_twice.
  f_equal; apply filter_ext; intros e; unfold glob_name.
  - change "*.graphql" with (String "*" ".graphql").
    now rewrite glob_match_ending by reflexivity.
  - change "*schema*" with (String "*" ("schema" ++ "*")).
    now rewrite glob_match_keyword by reflexivity.
Qed.

(** X13: the GraphQL pass looks for names ending in [.graphql] and for
    names holding [schema], and keeps the extensions [.graphql] and [.gql]:
    a [.gql] file is therefore reported exactly when its name holds
    [schema], and a file such as schema.graphql, found by both globs, is
    reported twice. *)
Theorem graphql_pass_selection (repo_path : repo) :
  let everything := walk_entries (repo_entries repo_path) in
  let selected :=
    filter is_graphql_suffix (graphql_files fold_case repo_path) in
  selected
  = (filter (fun e => is_graphql_suffix e
                      && ends_with ".graphql" (glob_name fold_case e)) everything
     ++ filter (fun e => is_graphql_suffix e
                         && PyStr.contains "schema" (glob_name fold_case e))
               everything)%list
  /\ (forall e, suffix e = ".gql" ->
        (In e selected
         <-> In e everything
             /\ PyStr.contains "schema" (glob_name fold_case e) = true))
  /\ (forall e, In e everything -> suffix e = ".graphql" ->
        PyStr.contains "schema" (name e) = true ->
        exists l1 l2 l3, selected = (l1 ++ e :: l2 ++ e :: l3)%list).
Proof.
  intros everything selected.
  assert (Hsel := graphql_files_filters repo_path).
  fold everything in Hsel. fold selected in Hsel.
  split; [exact Hsel|]. split.
  - intros e Hs. rewrite Hsel, in_app_iff, !filter_In, !andb_true_iff.
    rewrite (gql_is_not_graphql e Hs).
    assert (Hg : is_graphql_suffix e = true)
      by (unfold is_graphql_suffix; now rewrite Hs).
    rewrite Hg. intuition discriminate.
  - intros e Hin Hs Hschema. rewrite Hsel.
    assert (Hg : is_graphql_suffix e = true)
      by (unfold is_graphql_suffix; now rewrite Hs).
    assert (Hend : ends_with ".graphql" (glob_name fold_case e) = true).
    { pose proof (suffix_ends e ".graphql" Hs ltac:(discriminate)) as H.
      unfold glob_name. destruct fold_case; [|exact H].
      exact (ends_with_lower ".graphql" (name e) H). }
    assert (Hkw : PyStr.contains "schema" (glob_name fold_case e) = true).
    { unfold glob_name. destruct fold_case; [|exact Hschema].
      exact (contains_lower "schema" (name e) Hschema). }
    assert (H1 : In e (filter (fun e => is_graphql_suffix e
                         && ends_with ".graphql" (glob_name fold_case e)) everything))
      by (apply filter_In; split; [exact Hin|now rewrite Hg, Hend]).
    assert (H2 : In e (filter (fun e => is_graphql_suffix e
                         && PyStr.contains "schema" (glob_name fold_case e))
                        everything))
      by (apply filter_In; split; [exact Hin|now rewrite Hg, Hkw]).
    apply in_split in H1 as (a1 & a2 & ->). apply in_split in H2 as (b1 & b2 & ->).
    exists a1, (a2 ++ b1)%list, b2. now rewrite <- !app_assoc.
Qed.

End Passes.

Section DocsPass.

Variable fold_case : bool.

Lemma rglob_keyword_In (entries : list node) (kw : string) (e : node) :
  no_star kw = true ->
  (In e (rglob fold_case entries (String "*" (kw ++ "*")))
   <-> In e (walk_entries entries)
       /\ PyStr.contains kw (glob_name fold_case e) = true).
Proof.
  intros Hkw. unfold rglob. rewrite filter_In. unfold glob_name.
  now rewrite glob_match_keyword.
Qed.

Lemma rglob_ending_In (entries : list node) (ending : string) (e : node) :
  no_star ending = true ->
  (In e (rglob fold_case entries (String "*" ending))
   <-> In e (walk_entries entries)
       /\ ends_with ending (glob_name fold_case e) = true).
Proof.
  intros Hkw. unfold rglob. rewrite filter_In. unfold glob_name.
  now rewrite glob_match_ending.
Qed.

(** X14: the documentation pass reports a line "API Documentation: name/"
    exactly for a directory, at any depth, whose name holds [api] or [docs]
    and below which, at any depth, some entry has a name ending in [.md];
    files named after the keywords are not reported. *)
Theorem api_docs_pass (repo_path : repo) (line : string) :
  In line (flat_map (docs_lines fold_case) (api_docs fold_case repo_path))
  <-> exists dir_name entries,
        In (Dir dir_name entries) (walk_entries (repo_entries repo_path))
        /\ (PyStr.contains "api" (glob_name fold_case (Dir dir_name entries)) = true
            \/ PyStr.contains "docs" (glob_name fold_case (Dir dir_name entries))
               = true)
        /\ (exists md, In md (walk_entries entries)
                       /\ ends_with ".md" (glob_name fold_case md) = true)
        /\ line = "API Documentation: " ++ dir_name ++ "/".
Proof.
  rewrite in_flat_map. unfold api_docs.
  change "*api*" with (String "*" ("api" ++ "*")).
  change "*docs*" with (String "*" ("docs" ++ "*")).
  split.
  - intros (doc_path & Hin & Hline).
    destruct doc_path as [n c|n sub]; [destruct Hline|].
    cbn [docs_lines] in Hline.
    destruct (rglob fold_case sub "*.md") as [|md mds] eqn:Hmd; [destruct Hline|].
    destruct Hline as [<-|[]]. exists n, sub.
    apply in_app_iff in Hin.
    assert (Hmd' : In md (rglob fold_case sub (String "*" ".md")))
      by (change (String "*" ".md") with "*.md"; rewrite Hmd; now left).
    apply rglob_ending_In in Hmd'; [|reflexivity].
    destruct Hin as [Hin|Hin]; apply rglob_keyword_In in Hin; try reflexivity;
      destruct Hin as [Hw Hk]; repeat split; auto; now exists md.
  - intros (n & sub & Hw & Hk & (md & Hmd & Hend) & ->).
    exists (Dir n sub). split.
    + apply in_app_iff.
      destruct Hk as [Hk|Hk]; [left|right]; apply rglob_keyword_In; auto.
    + cbn [docs_lines].
      assert (Hin : In md (rglob fold_case sub "*.md")).
      { change "*.md" with (String "*" ".md"). apply rglob_ending_In; auto. }
      destruct (rglob fold_case sub "*.md"); [destruct Hin|now left].
Qed.

End DocsPass.

(** ** The rendered tree does not depend on the listing order *)

Lemma permutation_filter {A : Type} (p : A -> bool) (l l' : list A) :
  Permutation l l' -> Permutation (filter p l) (filter p l').
Proof.
  induction 1 as [|x l l' _ IH|x y l|l l' l'' _ IH1 _ IH2]; simpl.
  - constructor.
  - destruct (p x); [now constructor|exact IH].
  - destruct (p x), (p y); try reflexivity. apply perm_swap.
  - now transitivity (filter p l').
Qed.

Lemma NoDup_names_filter (p : node -> bool) (l : list node) :
  NoDup (map name l) -> NoDup (map name (filter p l)).
Proof.
  induction l as [|x l IH]; simpl; intros H; [constructor|].
  inversion H as [|? ? Hx Hl]; subst.
  destruct (p x); simpl; [|now apply IH].
  constructor; [|now apply IH].
  intros Hin. apply Hx. apply in_map_iff in Hin as (y & Hy & Hin).
  apply filter_In in Hin as [Hin _]. rewrite <- Hy. now apply in_map.
Qed.

Lemma sorted_lists_equal (a b : list node) :
  StronglySorted name_le a -> StronglySorted name_le b ->
  Permutation a b -> NoDup (map name a) -> a = b.
Proof.
  revert b. induction a as [|x a IH]; intros b Ha Hb Hperm Hnd.
  - apply Permutation_nil in Hperm. now subst.
  - destruct b as [|y b];
      [apply Permutation_sym, Permutation_nil in Hperm; discriminate|].
    inversion Ha as [|? ? Ha' Hxa]; subst.
    inversion Hb as [|? ? Hb' Hyb]; subst.
    inversion Hnd as [|? ? Hfresh Hnd']; subst.
    rewrite Forall_forall in Hxa, Hyb.
    assert (Hxy : x = y).
    { assert (Hx : In x (y :: b)) by (apply (Permutation_in x Hperm); now left).
      assert (Hy : In y (x :: a))
        by (apply (Permutation_in y (Permutation_sym Hperm)); now left).
      destruct Hx as [->|Hx]; [reflexivity|].
      destruct Hy as [->|Hy]; [reflexivity|].
      assert (Hn : name x = name y)
        by (apply String.leb_antisym; [now apply Hxa|now apply Hyb]).
      exfalso. apply Hfresh. rewrite Hn. now apply in_map. }
    subst y. f_equal. apply IH; auto. now apply Permutation_cons_inv in Hperm.
Qed.

(** X15: when the entries of the root have distinct names, the rendered
    structure is the same whatever the order in which the file system lists
    them, for every [max_depth]. *)
Theorem structure_ignores_listing_order (r r' : repo) (max_depth : Z) :
  repo_name r = repo_name r' ->
  Permutation (repo_entries r) (repo_entries r') ->
  NoDup (root_names r) ->
  get_project_structure r max_depth = get_project_structure r' max_depth.
Proof.
  intros Hname Hperm Hnd.
  unfold get_project_structure, structure_lines. rewrite Hname.
  do 2 f_equal. cbn [add_directory].
  replace (sorted (filter listed (repo_entries r')))
    with (sorted (filter listed (repo_entries r))); [reflexivity|].
  apply sorted_lists_equal.
  - apply sorted_strongly.
  - apply sorted_strongly.
  - rewrite !sorted_perm. now apply permutation_filter.
  - apply (Permutation_NoDup
             (l := map name (filter listed (repo_entries r)))).
    + apply Permutation_map, Permutation_sym, sorted_perm.
    + now apply NoDup_names_filter.
Qed.

Lemma structure_ignores_listing_order_witness :
  get_project_structure repo_with_tree 3
  = get_project_structure
      {| repo_name := "svc"; repo_entries := rev (repo_entries repo_with_tree) |} 3.
Proof.
  apply (structure_ignores_listing_order repo_with_tree
           {| repo_name := "svc"; repo_entries := rev (repo_entries repo_with_tree) |}
           3 eq_refl).
  - apply Permutation_rev.
  - unfold root_names. simpl.
    repeat (constructor; [simpl; intuition discriminate|]). constructor.
Defined.

(** ** The info lines of the configuration report *)

Lemma string_app_assoc (a b c : string) : (a ++ b) ++ c = a ++ b ++ c.
Proof. induction a as [|x a IH]; simpl; [reflexivity|now rewrite IH]. Qed.

Section PackageInfo.

Variable json_loads : string -> option pyval.
Variable py_repr : pyval -> string.

Hypothesis json_loads_str_keys :
  forall content v, json_loads content = Some v -> Py.str_keys v = true.

Lemma join_keys (sep : string) (n : nat) (d : list (pyval * pyval)) :
  Py.str_keys (PDict d) = true ->
  Py.join sep (firstn n (map fst d))
  = Ok (PyStr.join sep (firstn n (key_names d))).
Proof.
  intros H. unfold Py.join.
  now rewrite (str_keys_names _ H), firstn_map, strings_map_PStr.
Qed.

(** X16: the info line of package.json.  A manifest that cannot be read or
    parsed gives none; a mapping without [scripts] and without [engines]
    gives none; a mapping whose [scripts] and [engines] are mappings, the
    latter with a [node] entry, gives the first three script names and the
    engine constraint, joined by " | ". *)
Theorem extract_package_json_info_spec (package_path : node) :
  ((forall content, read_text package_path = Ok content ->
                    json_loads content = None) ->
   _extract_package_json_info json_loads py_repr package_path = None)
  /\ (forall content d,
        read_text package_path = Ok content ->
        json_loads content = Some (PDict d) ->
        Py.lookup "scripts" d = None -> Py.lookup "engines" d = None ->
        _extract_package_json_info json_loads py_repr package_path = None)
  /\ (forall content d scripts engines version,
        read_text package_path = Ok content ->
        json_loads content = Some (PDict d) ->
        Py.lookup "scripts" d = Some (PDict scripts) ->
        Py.lookup "engines" d = Some (PDict engines) ->
        Py.lookup "node" engines = Some (PStr version) ->
        _extract_package_json_info json_loads py_repr package_path
        = Some ("Scripts: " ++ PyStr.join ", " (firstn 3 (key_names scripts))
                ++ " | Node: " ++ version)).
Proof.
  unfold _extract_package_json_info, parse. split; [|split].
  - intros H. destruct (read_text package_path) as [content|e]; [|reflexivity].
    cbn [bind]. now rewrite (H content eq_refl).
  - intros content d -> Hload Hs He. cbn [bind]. rewrite Hload. cbn [bind].
    rewrite !contains_dict. unfold has_key. rewrite Hs, He. reflexivity.
  - intros content d scripts engines version -> Hload Hs He Hn.
    cbn [bind]. rewrite Hload. cbn [bind].
    pose proof (json_loads_str_keys _ _ Hload) as Hkeys.
    pose proof (str_keys_lookup _ _ _ Hkeys Hs) as Hsk.
    rewrite !contains_dict. unfold has_key. rewrite Hs, He.
    cbn [bind Py.getitem]. rewrite Hs, He. cbn [bind Py.keys].
    rewrite (join_keys ", " 3 scripts Hsk). cbn [bind].
    rewrite contains_dict. unfold has_key. rewrite Hn. cbn [bind Py.getitem].
    rewrite Hn. cbn [bind]. unfold append, PyStr.join, format.
    cbn [app String.concat try_except].
    now rewrite string_app_assoc.
Qed.

End PackageInfo.

Lemma extract_package_json_info_spec_witness :
  _extract_package_json_info sample_json (fun _ => "")
                             (File "package.json" "express-manifest")
  = Some "Scripts: start | Node: >=18".
Proof.
  pose proof (extract_package_json_info_spec sample_json (fun _ => "")
                sample_json_str_keys (File "package.json" "express-manifest"))
    as (_ & _ & H).
  exact (H "express-manifest" _ _ _ _ eq_refl eq_refl eq_refl eq_refl eq_refl).
Defined.

Section ConfigBlocks.

Variable json_loads : string -> option pyval.
Variable py_repr : pyval -> string.


End ConfigBlocks.

(** ** The repository name taken from the URL *)

Lemma split_char_last_piece (c : ascii) (base tail : string) :
  lacks c tail = true ->
  exists first pieces,
    PyStr.split_char c (base ++ String c tail) = (first :: pieces ++ [tail])%list.
Proof.
  intros Htail. induction base as [|a base (first & pieces & IH)].
  - exists EmptyString, []. change ("" ++ String c tail) with (String c tail).
    cbn [PyStr.split_char].
    now rewrite Ascii.eqb_refl, (split_char_lacks _ _ Htail).
  - change (String a base ++ String c tail) with (String a (base ++ String c tail)).
    cbn [PyStr.split_char]. rewrite IH. destruct (Ascii.eqb a c).
    + now exists EmptyString, (first :: pieces).
    + now exists (String a first), pieces.
Qed.

Lemma lacks_app (c : ascii) (s t : string) :
  lacks c s = true -> lacks c t = true -> lacks c (s ++ t) = true.
Proof.
  intros Hs Ht. induction s as [|a s IH]; [exact Ht|].
  cbn [lacks] in Hs. apply andb_true_iff in Hs as [Ha Hs].
  change (String a s ++ t) with (String a (s ++ t)). cbn [lacks].
  now rewrite Ha, IH.
Qed.

Lemma replace_from_cons (old new : string) (c : ascii) (s : string) :
  replace_from 0 old new (String c s)
  = if String.prefix old (String c s)
    then new ++ replace_from (String.length old - 1) old new s
    else String c (replace_from 0 old new s).
Proof. reflexivity. Qed.

Lemma replace_without_occurrence (old new s : string) :
  PyStr.contains old s = false -> replace old new s = s.
Proof.
  unfold replace. induction s as [|c s IH]; intros H; [reflexivity|].
  rewrite contains_cons in H. apply orb_false_iff in H as [P C].
  rewrite replace_from_cons, P. now rewrite IH.
Qed.

Lemma prefix_cons (p : ascii) (ps : string) (c : ascii) (s : string) :
  String.prefix (String p ps) (String c s)
  = if ascii_dec p c then String.prefix ps s else false.
Proof. reflexivity. Qed.

Lemma dot_git_no_overlap (c : ascii) (a b : string) :
  String.prefix ".git" (String c a) = false ->
  String.prefix ".git" (String c (a ++ ".git" ++ b)) = false.
Proof.
  rewrite !prefix_cons. destruct (ascii_dec "." c) as [_|_]; [|reflexivity].
  destruct a as [|x [|y [|z a]]].
  - intros _. change ("" ++ ".git" ++ b) with (String "." ("git" ++ b)).
    rewrite prefix_cons. now destruct (ascii_dec "g" ".").
  - intros _. change (String x "" ++ ".git" ++ b)
      with (String x (String "." ("git" ++ b))).
    rewrite !prefix_cons. destruct (ascii_dec "g" x); [|reflexivity].
    now destruct (ascii_dec "i" ".").
  - intros _. change (String x (String y "") ++ ".git" ++ b)
      with (String x (String y (String "." ("git" ++ b)))).
    rewrite !prefix_cons. destruct (ascii_dec "g" x); [|reflexivity].
    destruct (ascii_dec "i" y); [|reflexivity].
    now destruct (ascii_dec "t" ".").
  - change (String x (String y (String z a)) ++ ".git" ++ b)
      with (String x (String y (String z (a ++ ".git" ++ b)))).
    rewrite !prefix_cons. destruct (ascii_dec "g" x); [|reflexivity].
    destruct (ascii_dec "i" y); [|reflexivity].
    destruct (ascii_dec "t" z); [|reflexivity].
    rewrite prefix_empty. discriminate.
Qed.

Lemma replace_dot_git (a b : string) :
  PyStr.contains ".git" a = false ->
  replace ".git" "" (a ++ ".git" ++ b) = a ++ replace ".git" "" b.
Proof.
  unfold replace. induction a as [|c a IH]; intros H.
  - change ("" ++ ".git" ++ b) with (String "." (String "g" (String "i" (String "t" b)))).
    rewrite replace_from_cons.
    replace (String.prefix ".git" (String "." (String "g" (String "i" (String "t" b)))))
      with true by (now destruct b).
    reflexivity.
  - rewrite contains_cons in H. apply orb_false_iff in H as [P C].
    change (String c a ++ ".git" ++ b) with (String c (a ++ ".git" ++ b)).
    rewrite replace_from_cons, (dot_git_no_overlap c a b P).
    change (String c a ++ replace_from 0 ".git" "" b)
      with (String c (a ++ replace_from 0 ".git" "" b)).
    now rewrite IH.
Qed.

(** X18: the repository name is what follows the last slash of the URL with
    every occurrence of [.git] taken out, not only a final one: for a last
    path segment [a.git] or [a] it is [a], and a segment such as
    user.github.io loses the [.git] of [.github]. *)
Theorem repo_name_of_url_spec (base a b : string) :
  lacks "/" a = true -> lacks "/" b = true ->
  PyStr.contains ".git" a = false ->
  repo_name_of_url (base ++ "/" ++ a ++ ".git" ++ b) = a ++ replace ".git" "" b
  /\ repo_name_of_url (base ++ "/" ++ a ++ ".git") = a
  /\ repo_name_of_url (base ++ "/" ++ a) = a.
Proof.
  intros Ha Hb Hgit. unfold repo_name_of_url.
  assert (Hlast : forall tail, lacks "/" tail = true ->
             last (PyStr.split_char "/" (base ++ "/" ++ tail)) "" = tail).
  { intros tail Ht.
    destruct (split_char_last_piece "/" base tail Ht) as (first & pieces & E).
    change (base ++ "/" ++ tail) with (base ++ String "/" tail).
    rewrite E. change (first :: pieces ++ [tail])%list
      with ((first :: pieces) ++ [tail])%list. apply last_last. }
  split; [|split].
  - rewrite Hlast; [now apply replace_dot_git|].
    apply lacks_app; [exact Ha|]. now apply (lacks_app "/" ".git" b).
  - rewrite Hlast by (apply lacks_app; [exact Ha|reflexivity]).
    pose proof (replace_dot_git a "" Hgit) as H.
    change (replace ".git" "" "") with "" in H.
    replace (a ++ "") with a in H; [exact H|].
    clear. induction a as [|c a IH]; [reflexivity|]. simpl. now rewrite <- IH.
  - rewrite (Hlast a Ha). now apply replace_without_occurrence.
Qed.

Lemma repo_name_of_url_spec_witness :
  repo_name_of_url "https://github.com/user/user.github.io" = "userhub.io"
  /\ repo_name_of_url "https://github.com/fastapi/fastapi.git" = "fastapi".
Proof.
  split.
  - exact (proj1 (repo_name_of_url_spec "https://github.com/user" "user" "hub.io"
                    eq_refl eq_refl eq_refl)).
  - exact (proj1 (proj2 (repo_name_of_url_spec "https://github.com/fastapi"
                           "fastapi" "" eq_refl eq_refl eq_refl))).
Defined.

(** ** The command line: output path, key and preview *)

(** X19: the default output path.  Without [-o], or with an empty one, the
    documentation goes to the repository name followed by [_docs.md]; the
    path is never empty, so the test [if output_path] of [generate_from_git]
    holds for every run of the command line. *)
Theorem output_path_spec (output : option string) (git_url : string) :
  output_path output git_url <> ""
  /\ (forall path, output = Some path -> path <> "" ->
                   output_path output git_url = path)
  /\ (falsy output = true ->
      output_path output git_url = repo_name_of_url git_url ++ "_docs.md").
Proof.
  assert (Hdefault : repo_name_of_url git_url ++ "_docs.md" <> "")
    by (destruct (repo_name_of_url git_url); discriminate).
  unfold output_path, falsy. split; [|split].
  - destruct output as [path|]; [|exact Hdefault].
    unfold PyStr.truthy. destruct (String.eqb_spec path ""); [exact Hdefault|].
    assumption.
  - intros path -> Hne. unfold PyStr.truthy.
    apply String.eqb_neq in Hne. now rewrite Hne.
  - destruct output as [path|]; [|reflexivity].
    intros H. apply negb_true_iff in H. now rewrite H.
Qed.

Lemma py_or_falsy (a b : option string) :
  falsy (py_or a b) = falsy a && falsy b.
Proof.
  unfold py_or, falsy. destruct a as [s|]; [|reflexivity].
  destruct (PyStr.truthy s) eqn:E; simpl; [now rewrite E|reflexivity].
Qed.

(** X20: the key of a run.  The command line gives up exactly when the
    option and both environment variables are missing or empty; otherwise it
    takes the first non-empty of [--api-key], NVIDIA_API_KEY and
    OPENAI_API_KEY, and the constructor keeps the key it is handed.  The
    constructor on its own falls back to NVIDIA_API_KEY only: with
    OPENAI_API_KEY alone it raises where the command line goes on. *)
Theorem api_key_spec (arg nvidia openai : option string) :
  (cli_api_key arg nvidia openai = None
   <-> falsy arg = true /\ falsy nvidia = true /\ falsy openai = true)
  /\ (falsy arg = false -> cli_api_key arg nvidia openai = arg)
  /\ (falsy arg = true -> falsy nvidia = false ->
      cli_api_key arg nvidia openai = nvidia)
  /\ (falsy arg = true -> falsy nvidia = true -> falsy openai = false ->
      cli_api_key arg nvidia openai = openai
      /\ init_api_key arg nvidia = None)
  /\ (forall key other, cli_api_key arg nvidia openai = Some key ->
        key <> "" /\ init_api_key (Some key) other = Some key).
Proof.
  assert (Hpick : forall a b, falsy a = false -> py_or a b = a).
  { intros [x|] b0 H; unfold py_or, falsy in *; [|discriminate].
    apply negb_false_iff in H. now rewrite H. }
  assert (Hskip : forall a b, falsy a = true -> py_or a b = b).
  { intros [x|] b0 H; unfold py_or, falsy in *; [|reflexivity].
    apply negb_true_iff in H. now rewrite H. }
  unfold cli_api_key, init_api_key. split; [|split; [|split; [|split]]].
  - destruct (falsy (py_or (py_or arg nvidia) openai)) eqn:E.
    + rewrite !py_or_falsy in E. apply andb_true_iff in E as [E Ho].
      apply andb_true_iff in E as [Ha Hn]. tauto.
    + split.
      * intros H. rewrite H in E. discriminate.
      * intros (Ha & Hn & Ho). rewrite !py_or_falsy, Ha, Hn, Ho in E. discriminate.
  - intros Ha. rewrite (Hpick arg nvidia Ha), (Hpick arg openai Ha). now rewrite Ha.
  - intros Ha Hn. rewrite (Hskip arg nvidia Ha), (Hpick nvidia openai Hn).
    now rewrite Hn.
  - intros Ha Hn Ho. rewrite (Hskip arg nvidia Ha), (Hskip nvidia openai Hn).
    now rewrite Ho, Hn.
  - intros key other H.
    destruct (falsy (py_or (py_or arg nvidia) openai)) eqn:E; [discriminate|].
    rewrite H in E. unfold falsy in E. apply negb_false_iff in E.
    split.
    + intros ->. discriminate.
    + unfold py_or. rewrite E. unfold falsy. now rewrite E.
Qed.

(** X21: the preview is the documentation itself up to 300 characters and
    its first 300 characters followed by "..." beyond, hence never longer
    than 303 characters. *)
Theorem preview_spec (documentation : string) :
  String.length (preview documentation) <= 303
  /\ (String.length documentation <= 300 -> preview documentation = documentation)
  /\ (300 < String.length documentation ->
      preview documentation = String.substring 0 300 documentation ++ "..."
      /\ String.length (preview documentation) = 303).
Proof.
  unfold preview.
  destruct (Nat.ltb_spec 300 (String.length documentation)) as [Hlong|Hshort].
  - assert (Hlen : String.length (PyStr.slice_to 300 documentation ++ "...") = 303).
    { rewrite string_length_append, slice_to_length. simpl String.length. lia. }
    split; [lia|]. split; [lia|]. intros _. now split.
  - split; [lia|]. split; [reflexivity|]. lia.
Qed.
